(** * In-kernel probes of inspektor-gadget: the DNS query probe and the
      seccomp audit probe

    A shallow embedding of
      - [pkg/gadgets/dns/tracer/bpf/dns.c]            (socket filter [bpf_prog1])
      - [pkg/gadgets/audit-seccomp/tracer/bpf/audit-seccomp.c]
                                                     (kprobe [kprobe__audit_seccomp])
    and the properties of the two probes that the specification states. *)

From Stdlib Require Import ZArith List Lia Bool.
From Stdlib Require Import Strings.Byte.
From stdpp Require Import base option list gmap.

Local Open Scope Z_scope.

(** * Part I: the programs *)

(** ** C integer types *)

Module CInt.

(** Conversion to an unsigned type of [w] bits and to [int]. *)
Definition to_unsigned (w : Z) (x : Z) : Z := x mod 2 ^ w.

Definition to_u16 : Z -> Z := to_unsigned 16.
Definition to_u32 : Z -> Z := to_unsigned 32.
Definition to_u64 : Z -> Z := to_unsigned 64.

Definition to_int (x : Z) : Z :=
  let r := to_u32 x in if r <? 2 ^ 31 then r else r - 2 ^ 32.

End CInt.

(** ** Bytes *)

Definition byte_val (b : byte) : Z := Z.of_N (Byte.to_N b).

Definition byte_of (z : Z) : byte :=
  match Byte.of_N (Z.to_N (z mod 256)) with
  | Some b => b
  | None => "000"%byte
  end.

Definition zero_byte : byte := "000"%byte.

(** ** Probe programs

    A probe is straight-line code over some observable state [W]; it may
    leave early with [return rc]. [Stuck] is the answer of a loop that was
    given too little fuel; it is not the answer of a probe that is given
    enough (see [DnsFacts.bpf_prog1_total]). *)

Module Prog.

Inductive outcome (A : Type) : Type :=
| Next (a : A)
| Return (rc : Z)
| Stuck.
Arguments Next {A} a.
Arguments Return {A} rc.
Arguments Stuck {A}.

Definition prog (W A : Type) : Type := W -> outcome A * W.

Definition ret {W A} (a : A) : prog W A := fun w => (Next a, w).

Definition bind {W A B} (m : prog W A) (k : A -> prog W B) : prog W B :=
  fun w =>
    match m w with
    | (Next a, w') => k a w'
    | (Return rc, w') => (Return rc, w')
    | (Stuck, w') => (Stuck, w')
    end.

(** C's [return rc;] in the middle of the probe. *)
Definition return_ {W A} (rc : Z) : prog W A := fun w => (Return rc, w).

Definition stuck {W A} : prog W A := fun w => (Stuck, w).

Definition get {W} : prog W W := fun w => (Next w, w).
Definition modify {W} (f : W -> W) : prog W unit := fun w => (Next tt, f w).

(** What the hosting runtime sees of a probe started in [w]: its return
    value and the state it leaves. *)
Definition run {W} (p : prog W Z) (w : W) : option (Z * W) :=
  match p w with
  | (Next rc, w') => Some (rc, w')
  | (Return rc, w') => Some (rc, w')
  | (Stuck, _) => None
  end.

Inductive ctl : Type := Continue | Break.

(** [for (; cond; incr) body], where [body] says whether it ran into
    [break]. *)
Fixpoint for_loop {W S} (fuel : nat) (cond : S -> bool) (incr : S -> S)
    (body : S -> prog W (ctl * S)) (s : S) : prog W S :=
  if cond s then
    match fuel with
    | O => stuck
    | S fuel' =>
        bind (body s) (fun r =>
          match r with
          | (Break, s') => ret s'
          | (Continue, s') => for_loop fuel' cond incr body (incr s')
          end)
    end
  else ret s.

End Prog.

Import Prog.

Declare Scope prog_scope.
Delimit Scope prog_scope with prog.
Notation "x <- m ;; k" := (bind m (fun x => k))
  (at level 100, m at next level, right associativity) : prog_scope.
Notation "m ;;; k" := (bind m (fun _ => k))
  (at level 100, right associativity) : prog_scope.

(** ** The DNS query probe ([dns.c]) *)

Module Dns.

Import CInt.
Local Open Scope prog_scope.

(** *** Layout of the headers in front of the DNS section
    ([linux/if_ether.h], [linux/ip.h], [linux/in.h], [linux/udp.h]) *)

Definition ETH_HLEN : Z := 14.
Definition ETH_P_IP : Z := 0x0800.
Definition IPPROTO_UDP : Z := 17.
Definition sizeof_iphdr : Z := 20.
Definition sizeof_udphdr : Z := 8.
Definition offsetof_ethhdr_h_proto : Z := 12.
Definition offsetof_iphdr_protocol : Z := 9.

Definition DNS_OFF : Z := ETH_HLEN + sizeof_iphdr + sizeof_udphdr.

(** [struct dnshdr]: six 16-bit members. *)
Definition offsetof_dnshdr_flags : Z := 2.
Definition offsetof_dnshdr_qdcount : Z := 4.
Definition offsetof_dnshdr_ancount : Z := 6.
Definition offsetof_dnshdr_nscount : Z := 8.
Definition sizeof_dnshdr : Z := 12.

(** Offset of the first byte of the question name. *)
Definition NAME_OFF : Z := DNS_OFF + sizeof_dnshdr.

(** *** [union dnsflags]

    The union overlays the two bytes of [__u16 flags] with two bytes of
    bit-fields. Which bits of the 16-bit value a bit-field names depends
    on the byte order of the target the probe is compiled for: the order
    of the bytes of a [__u16] in memory, and the end of a byte from which
    the compiler hands out bit-fields (the least significant bit on a
    little-endian target, the most significant one on a big-endian
    target). *)

Inductive byte_order : Type := LittleEndian | BigEndian.

Record dnsflags : Type := { flags : Z }.

(** The byte of a [__u16] stored at address [k] (0 or 1) of the union. *)
Definition u16_byte_at (target : byte_order) (v : Z) (k : Z) : Z :=
  match target with
  | LittleEndian => if k =? 0 then Z.land v 255 else Z.shiftr v 8
  | BigEndian => if k =? 0 then Z.shiftr v 8 else Z.land v 255
  end.

(** A bit-field of [width] bits declared after [before] bits of the same
    byte. *)
Definition bitfield (target : byte_order) (byte before width : Z) : Z :=
  match target with
  | LittleEndian => Z.land (Z.shiftr byte before) (Z.ones width)
  | BigEndian => Z.land (Z.shiftr byte (8 - before - width)) (Z.ones width)
  end.

(** Members of the first byte: [rd:1; tc:1; aa:1; opcode:4; qr:1]. *)
Definition dnsflags_qr (target : byte_order) (f : dnsflags) : Z :=
  bitfield target (u16_byte_at target (flags f) 0) 7 1.

(** *** Frames and events *)

(** [struct __sk_buff] as the probe sees it: the bytes of the frame and
    the packet-type classifier. *)
Record sk_buff : Type := {
  skb_data : list byte;
  skb_pkt_type : Z
}.

(** Modelled from the spec: [struct event_t] of [dns-common.h], which is
    not among the sources: a name buffer of [MAX_DNS_NAME] bytes, a 16-bit
    query type and the packet-type classifier. *)
Record event_t : Type := {
  name : list byte;
  qtype : Z;
  pkt_type : Z
}.

(** What a run of the probe does that can be seen from outside: the
    loads from the frame, as (offset, size) in program order, and the
    records written to the [events] perf map. *)
Record effects : Type := {
  loads : list (Z * Z);
  events : list event_t
}.

Definition no_effects : effects := {| loads := []; events := [] |}.

Definition log_load (off size : Z) (w : effects) : effects :=
  {| loads := loads w ++ [(off, size)]; events := events w |}.

Definition frame_byte (skb : sk_buff) (off : Z) : option Z :=
  if off <? 0 then None else byte_val <$> skb_data skb !! Z.to_nat off.

Definition frame_half (skb : sk_buff) (off : Z) : option Z :=
  match frame_byte skb off, frame_byte skb (off + 1) with
  | Some hi, Some lo => Some (Z.lor (Z.shiftl hi 8) lo)
  | _, _ => None
  end.

(** [llvm.bpf.load.byte] and [llvm.bpf.load.half] compile to the
    BPF_LD_ABS and BPF_LD_IND instructions: they give the byte at the
    offset, or the 16-bit value that the two bytes at the offset spell in
    network byte order; when the offset is not inside the frame they end
    the program with return value 0. *)
Definition load_byte (skb : sk_buff) (off : Z) : prog effects Z :=
  fun w =>
    match frame_byte skb off with
    | Some v => (Next v, log_load off 1 w)
    | None => (Return 0, log_load off 1 w)
    end.

Definition load_half (skb : sk_buff) (off : Z) : prog effects Z :=
  fun w =>
    match frame_half skb off with
    | Some v => (Next v, log_load off 2 w)
    | None => (Return 0, log_load off 2 w)
    end.

Definition EFAULT : Z := 14.

(** [bpf_skb_load_bytes(skb, off, to, len)]: [len] bytes of the frame
    copied over the start of [to]; outside the frame the helper clears
    those bytes and answers [-EFAULT]. The result is the helper's return
    value and the new content of [to]. *)
Definition bpf_skb_load_bytes (skb : sk_buff) (off : Z) (to : list byte)
    (len : Z) : prog effects (Z * list byte) :=
  fun w =>
    let n := Z.to_nat len in
    if (0 <=? off) && (off + len <=? Z.of_nat (length (skb_data skb))) then
      (Next (0, take n (drop (Z.to_nat off) (skb_data skb)) ++ drop n to),
       log_load off len w)
    else
      (Next (- EFAULT, replicate n zero_byte ++ drop n to),
       log_load off len w).

(** [bpf_perf_event_output(skb, &events, BPF_F_CURRENT_CPU, &event,
    sizeof(event))]: the record handed to the per-CPU channel. Whether the
    channel has room for it is not the probe's business: the probe does
    not look at the helper's answer. *)
Definition bpf_perf_event_output (ev : event_t) : prog effects Z :=
  fun w => (Next 0, {| loads := loads w; events := events w ++ [ev] |}).

(** The variables of the loop over the labels. *)
Record loop_state : Type := { i : Z; skip : Z }.

Section Probe.

(** [MAX_DNS_NAME] of [dns-common.h], which is not among the sources,
    and the byte order of the BPF target. *)
Variable MAX_DNS_NAME : Z.
Variable target : byte_order.

(** Lines 61-87: the filters in front of the name. *)
Definition validate (skb : sk_buff) : prog effects unit :=
  h_proto <- load_half skb offsetof_ethhdr_h_proto ;;
  if negb (h_proto =? ETH_P_IP) then return_ 0 else
  protocol <- load_byte skb (ETH_HLEN + offsetof_iphdr_protocol) ;;
  if negb (protocol =? IPPROTO_UDP) then return_ 0 else
  v <- load_half skb (DNS_OFF + offsetof_dnshdr_flags) ;;
  let flags := {| flags := to_u16 v |} in
  if negb (dnsflags_qr target flags =? 0) then return_ 0 else
  qdcount <- load_half skb (DNS_OFF + offsetof_dnshdr_qdcount) ;;
  if negb (qdcount =? 1) then return_ 0 else
  ancount <- load_half skb (DNS_OFF + offsetof_dnshdr_ancount) ;;
  if negb (ancount =? 0) then return_ 0 else
  nscount <- load_half skb (DNS_OFF + offsetof_dnshdr_nscount) ;;
  if negb (nscount =? 0) then return_ 0 else
  ret tt.

(** Lines 93-104: one pass through the body of the loop. *)
Definition label_body (skb : sk_buff) (st : loop_state)
    : prog effects (ctl * loop_state) :=
  if negb (skip st =? 0) then
    ret (Continue, {| i := i st; skip := to_u32 (skip st - 1) |})
  else
    b <- load_byte skb (NAME_OFF + i st) ;;
    let label_len := to_int b in
    if label_len =? 0 then ret (Break, st)
    else ret (Continue, {| i := i st; skip := to_u32 label_len |}).

(** The loop of lines 93-104 entered in state [st]. *)
Definition label_loop_from (fuel : nat) (skb : sk_buff) (st : loop_state)
    : prog effects loop_state :=
  for_loop fuel
    (fun st => i st <? MAX_DNS_NAME)
    (fun st => {| i := to_u32 (i st + 1); skip := skip st |})
    (label_body skb)
    st.

(** Lines 91-104: [unsigned int i; unsigned int skip = 0;
    for (i = 0; i < MAX_DNS_NAME; i++) ...]. *)
Definition label_loop (fuel : nat) (skb : sk_buff) : prog effects loop_state :=
  label_loop_from fuel skb {| i := 0; skip := 0 |}.

(** Lines 91-106: the length of the name that the probe captures. *)
Definition name_length (fuel : nat) (skb : sk_buff) : prog effects Z :=
  st <- label_loop fuel skb ;;
  ret (to_u32 (if i st <? MAX_DNS_NAME then i st else MAX_DNS_NAME)).

(** [struct event_t event = {0,};] *)
Definition event_zero : event_t :=
  {| name := replicate (Z.to_nat MAX_DNS_NAME) zero_byte;
     qtype := 0;
     pkt_type := 0 |}.

(** Lines 108-122. *)
Definition emit (skb : sk_buff) (len : Z) : prog effects Z :=
  let event := event_zero in
  name' <- (if 0 <? len
            then r <- bpf_skb_load_bytes skb NAME_OFF (name event) len ;;
                 ret (snd r)
            else ret (name event)) ;;
  let event := {| name := name'; qtype := qtype event;
                  pkt_type := pkt_type event |} in
  let event := {| name := name event; qtype := qtype event;
                  pkt_type := skb_pkt_type skb |} in
  q <- load_half skb (NAME_OFF + len + 1) ;;
  let event := {| name := name event; qtype := to_u16 q;
                  pkt_type := pkt_type event |} in
  _ <- bpf_perf_event_output event ;;
  ret 0.

(** [bpf_prog1]; [fuel] bounds the passes through the loop that are
    followed. *)
Definition bpf_prog1 (fuel : nat) (skb : sk_buff) : prog effects Z :=
  _ <- validate skb ;;
  len <- name_length fuel skb ;;
  emit skb len.

(** **** The direct walk

    Following the words of the specification (and of the comment in the
    loop): the direct additive jump, [i += label_len] in place of the
    [skip] counter, so that the index advances by the length of the label
    plus one at each length byte, until a zero length byte or the cap. *)
Definition jump_body (skb : sk_buff) (j : Z) : prog effects (ctl * Z) :=
  b <- load_byte skb (NAME_OFF + j) ;;
  if b =? 0 then ret (Break, j) else ret (Continue, j + b).

Definition jump_loop_from (fuel : nat) (skb : sk_buff) (j : Z) : prog effects Z :=
  for_loop fuel (fun j => j <? MAX_DNS_NAME) (fun j => j + 1)
    (jump_body skb) j.

Definition jump_loop (fuel : nat) (skb : sk_buff) : prog effects Z :=
  jump_loop_from fuel skb 0.

Definition name_length_jump (fuel : nat) (skb : sk_buff) : prog effects Z :=
  j <- jump_loop fuel skb ;;
  ret (if j <? MAX_DNS_NAME then j else MAX_DNS_NAME).

End Probe.

Definition add_loads (w : effects) (l : list (Z * Z)) : effects :=
  {| loads := loads w ++ l; events := events w |}.

(** *** The walk over the labels, as a specification *)

(** The cap on the captured length. *)
Definition cap (MAX_DNS_NAME x : Z) : Z :=
  if x <? MAX_DNS_NAME then x else MAX_DNS_NAME.

(** Offsets, counted from the first byte of the name, at which a length
    byte sits: the first byte, and the byte after each non-empty label. *)
Inductive label_start (skb : sk_buff) : Z -> Prop :=
| label_first : label_start skb 0
| label_next k l :
    label_start skb k ->
    frame_byte skb (NAME_OFF + k) = Some l ->
    l <> 0 ->
    label_start skb (k + l + 1).

(** The terminator of the name: the first length byte that is zero. *)
Definition zero_label (skb : sk_buff) (k : Z) : Prop :=
  label_start skb k /\ frame_byte skb (NAME_OFF + k) = Some 0.

(** A length byte that the frame is too short to hold. *)
Definition cut_label (skb : sk_buff) (k : Z) : Prop :=
  label_start skb k /\ frame_byte skb (NAME_OFF + k) = None.

(** What a load of the traversal may touch: one length byte in front
    of the cap. *)
Definition label_load (MAX_DNS_NAME : Z) (skb : sk_buff) (from : Z)
    (a : Z * Z) : Prop :=
  exists k, a = (NAME_OFF + k, 1) /\ from <= k < MAX_DNS_NAME /\ label_start skb k.

(** *** The filters and the emission, as a specification *)

(** The frame passes the filters of lines 61-87, as the probe evaluates
    them. *)
Definition accepted (target : byte_order) (skb : sk_buff) : Prop :=
  frame_half skb offsetof_ethhdr_h_proto = Some ETH_P_IP /\
  frame_byte skb (ETH_HLEN + offsetof_iphdr_protocol) = Some IPPROTO_UDP /\
  (exists v, frame_half skb (DNS_OFF + offsetof_dnshdr_flags) = Some v /\
             dnsflags_qr target {| flags := v |} = 0) /\
  frame_half skb (DNS_OFF + offsetof_dnshdr_qdcount) = Some 1 /\
  frame_half skb (DNS_OFF + offsetof_dnshdr_ancount) = Some 0 /\
  frame_half skb (DNS_OFF + offsetof_dnshdr_nscount) = Some 0.

(** The loads of the filters, in program order. *)
Definition filter_loads : list (Z * Z) :=
  [ (offsetof_ethhdr_h_proto, 2);
    (ETH_HLEN + offsetof_iphdr_protocol, 1);
    (DNS_OFF + offsetof_dnshdr_flags, 2);
    (DNS_OFF + offsetof_dnshdr_qdcount, 2);
    (DNS_OFF + offsetof_dnshdr_ancount, 2);
    (DNS_OFF + offsetof_dnshdr_nscount, 2) ].

(** The name field of the event for a captured length [len]: the first
    [len] bytes of the question, then the zeros of the initializer. *)
Definition captured_name (MAX_DNS_NAME : Z) (skb : sk_buff) (len : Z) : list byte :=
  take (Z.to_nat len) (drop (Z.to_nat NAME_OFF) (skb_data skb))
  ++ replicate (Z.to_nat MAX_DNS_NAME - Z.to_nat len) zero_byte.

Definition name_loads (len : Z) : list (Z * Z) :=
  if 0 <? len then [(NAME_OFF, len)] else [].

Definition query_event (MAX_DNS_NAME : Z) (skb : sk_buff) (len q : Z) : event_t :=
  {| name := captured_name MAX_DNS_NAME skb len;
     qtype := q;
     pkt_type := skb_pkt_type skb |}.

(** How a run of the probe ends. *)
Inductive verdict (MAX_DNS_NAME : Z) (target : byte_order) (skb : sk_buff)
    : outcome Z -> list (Z * Z) -> list event_t -> Prop :=
| rejected n :
    ~ accepted target skb -> (n < 6)%nat ->
    verdict MAX_DNS_NAME target skb (Return 0) (take (S n) filter_loads) []
| name_cut k new :
    accepted target skb -> Forall (label_load MAX_DNS_NAME skb 0) new ->
    0 <= k < MAX_DNS_NAME -> cut_label skb k ->
    verdict MAX_DNS_NAME target skb (Return 0) (filter_loads ++ new) []
| qtype_cut len new :
    accepted target skb -> Forall (label_load MAX_DNS_NAME skb 0) new ->
    0 <= len <= MAX_DNS_NAME ->
    (len < MAX_DNS_NAME -> zero_label skb len) ->
    (len = MAX_DNS_NAME -> exists k, label_start skb k /\ MAX_DNS_NAME <= k) ->
    frame_half skb (NAME_OFF + len + 1) = None ->
    verdict MAX_DNS_NAME target skb (Return 0)
      (filter_loads ++ new ++ name_loads len ++ [(NAME_OFF + len + 1, 2)]) []
| emitted len q new :
    accepted target skb -> Forall (label_load MAX_DNS_NAME skb 0) new ->
    0 <= len <= MAX_DNS_NAME ->
    (len < MAX_DNS_NAME -> zero_label skb len) ->
    (len = MAX_DNS_NAME -> exists k, label_start skb k /\ MAX_DNS_NAME <= k) ->
    frame_half skb (NAME_OFF + len + 1) = Some q ->
    verdict MAX_DNS_NAME target skb (Next 0)
      (filter_loads ++ new ++ name_loads len ++ [(NAME_OFF + len + 1, 2)])
      [query_event MAX_DNS_NAME skb len q].

(** The probe, started in [w], hands [ev] to the channel. *)
Definition emits (MAX_DNS_NAME : Z) (target : byte_order) (fuel : nat)
    (skb : sk_buff) (w : effects) (ev : event_t) : Prop :=
  exists out ls evs,
    bpf_prog1 MAX_DNS_NAME target fuel skb w
    = (out, {| loads := loads w ++ ls; events := events w ++ evs |}) /\
    In ev evs.

(** The loop leaves through one of its two exits. *)
Definition stops_at_terminator_or_cap (MAX_DNS_NAME : Z) (fuel : nat)
    (skb : sk_buff) (w : effects) : Prop :=
  exists st w',
    label_loop MAX_DNS_NAME fuel skb w = (Next st, w') /\
    (zero_label skb (i st) \/ i st = MAX_DNS_NAME).

(** *** Runs only add to what was there

    A probe appends to the loads and to the events that it finds, and
    what it appends does not depend on them. *)

Definition app_effects (w d : effects) : effects :=
  {| loads := loads w ++ loads d; events := events w ++ events d |}.

Definition framed {A} (p : prog effects A) : Prop :=
  forall w, p w = (fst (p no_effects), app_effects w (snd (p no_effects))).

(** *** Sample frames *)

Definition bytes (l : list Z) : list byte := map byte_of l.

(** Ethernet, IPv4 and UDP headers of a DNS datagram (to port 53). *)
Definition eth_ip_udp : list Z :=
  [ 0x52; 0x54; 0x00; 0x12; 0x35; 0x02;  0x08; 0x00; 0x27; 0x01; 0x02; 0x03;
    0x08; 0x00;
    0x45; 0x00; 0x00; 0x31; 0x1c; 0x46; 0x40; 0x00; 0x40; 0x11;
    0x00; 0x00; 0x0a; 0x00; 0x02; 0x0f; 0x0a; 0x00; 0x02; 0x03;
    0xd4; 0x31; 0x00; 0x35; 0x00; 0x1d; 0x00; 0x00 ].

(** A DNS header with the given flag bytes, one question and no answer,
    authority or additional record. *)
Definition dns_header (flags_hi flags_lo : Z) : list Z :=
  [ 0x12; 0x34; flags_hi; flags_lo; 0; 1; 0; 0; 0; 0; 0; 0 ].

Definition frame (dns : list Z) : sk_buff :=
  {| skb_data := bytes (eth_ip_udp ++ dns); skb_pkt_type := 0 |}.

(** The query of the specification: labels "a" and "b", type A, class IN. *)
Definition query_a_b : sk_buff :=
  frame (dns_header 0 0 ++ [1; 97; 1; 98; 0; 0; 1; 0; 1]).

(** The query for the root name, type NS, class IN. *)
Definition root_query : sk_buff :=
  frame (dns_header 0 0 ++ [0; 0; 2; 0; 1]).

(** A query whose frame ends with the DNS header, and the query for the
    root name whose frame ends with the terminator of the name. *)
Definition truncated_query : sk_buff := frame (dns_header 0 0).
Definition truncated_root_query : sk_buff := frame (dns_header 0 0 ++ [0]).

(** A response (QR = 1) with response code REFUSED: one question, no
    record. *)
Definition refused_response : sk_buff :=
  frame (dns_header 0x80 0x05 ++ [1; 97; 1; 98; 0; 0; 1; 0; 1]).

(** The QR bit of the DNS header (RFC 1035, 4.1.1): the first bit on the
    wire of the flags. *)
Definition wire_qr (skb : sk_buff) : option Z :=
  (fun b => Z.shiftr b 7) <$> frame_byte skb (DNS_OFF + offsetof_dnshdr_flags).

(** *** Names on the wire *)

(** The encoding of a name (RFC 1035, 3.1) without its terminator: each
    label behind its length byte. *)
Fixpoint encode_name (labels : list (list byte)) : list byte :=
  match labels with
  | [] => []
  | l :: labels' => byte_of (Z.of_nat (length l)) :: l ++ encode_name labels'
  end.

(** The bytes of the frame from the question on. *)
Definition question (skb : sk_buff) : list byte :=
  drop (Z.to_nat NAME_OFF) (skb_data skb).

(** The offsets in front of the question that the filters load. *)
Definition filter_offsets : list nat :=
  [12; 13; 23; 44; 45; 46; 47; 48; 49; 50; 51]%nat.

(** An ARP frame (ethertype 0x0806), and the query for "example.com",
    type AAAA, class IN. *)
Definition arp_frame : sk_buff :=
  {| skb_data := bytes [ 0xff; 0xff; 0xff; 0xff; 0xff; 0xff;
                         0x08; 0x00; 0x27; 0x01; 0x02; 0x03; 0x08; 0x06;
                         0x00; 0x01; 0x08; 0x00; 0x06; 0x04; 0x00; 0x01 ];
     skb_pkt_type := 1 |}.

Definition example_com : list (list byte) :=
  [ bytes [101; 120; 97; 109; 112; 108; 101]; bytes [99; 111; 109] ].

Definition query_example_com : sk_buff :=
  {| skb_data := bytes (eth_ip_udp ++ dns_header 1 0)
                 ++ encode_name example_com ++ bytes [0; 0; 28; 0; 1];
     skb_pkt_type := 0 |}.

(** A header with everything that the filters do not load overwritten. *)
Definition masked_header (h : list byte) : list byte :=
  imap (fun k b => if bool_decide (k ∈ filter_offsets) then b else byte_of 0xaa) h.

(** *** The type of the question *)

(** The type of the question (RFC 1035, 4.1.2): the 16-bit value, in
    network byte order, of the two bytes that follow the name and its
    terminator. *)
Definition question_type (skb : sk_buff) (q : Z) : Prop :=
  exists k, zero_label skb k /\ frame_half skb (NAME_OFF + k + 1) = Some q.

(** A query whose name has four labels of 63 bytes 'A', type TXT (16),
    class IN: the length bytes of the name are bytes 0, 64, 128 and 192 of
    the question, and its terminator is byte 256. *)
Definition long_name_query : sk_buff :=
  let label := 63 :: replicate 63 65 in
  frame (dns_header 0 0 ++ label ++ label ++ label ++ label ++ [0; 0; 16; 0; 1]).

(** *** The filters one by one *)

(** A field of the frame is there and passes a test. *)
Definition field_is (field : option Z) (test : Z -> bool) : bool :=
  match field with
  | Some v => test v
  | None => false
  end.

(** The six tests of lines 61-87 on a frame, in program order, each as
    the probe evaluates it: the ethertype, the IP protocol, [flags.qr],
    and the three counts. *)
Definition filter_tests (target : byte_order) (skb : sk_buff) : list bool :=
  [ field_is (frame_half skb offsetof_ethhdr_h_proto) (fun v => v =? ETH_P_IP);
    field_is (frame_byte skb (ETH_HLEN + offsetof_iphdr_protocol))
      (fun v => v =? IPPROTO_UDP);
    field_is (frame_half skb (DNS_OFF + offsetof_dnshdr_flags))
      (fun v => dnsflags_qr target {| flags := to_u16 v |} =? 0);
    field_is (frame_half skb (DNS_OFF + offsetof_dnshdr_qdcount)) (fun v => v =? 1);
    field_is (frame_half skb (DNS_OFF + offsetof_dnshdr_ancount)) (fun v => v =? 0);
    field_is (frame_half skb (DNS_OFF + offsetof_dnshdr_nscount)) (fun v => v =? 0) ].

(** Filter [n] (counted from 0) is the first one that the frame fails. *)
Definition first_failing (target : byte_order) (skb : sk_buff) (n : nat) : Prop :=
  filter_tests target skb !! n = Some false /\
  forall m, (m < n)%nat -> filter_tests target skb !! m = Some true.

(** An IPv4 frame that carries TCP, and a UDP frame whose DNS header
    announces two questions. *)
Definition tcp_frame : sk_buff :=
  {| skb_data := bytes [ 0x52; 0x54; 0x00; 0x12; 0x35; 0x02;
                         0x08; 0x00; 0x27; 0x01; 0x02; 0x03; 0x08; 0x00;
                         0x45; 0x00; 0x00; 0x28; 0x1c; 0x46; 0x40; 0x00; 0x40; 0x06;
                         0x00; 0x00; 0x0a; 0x00; 0x02; 0x0f; 0x0a; 0x00; 0x02; 0x03;
                         0xd4; 0x31; 0x01; 0xbb; 0x00; 0x00; 0x00; 0x01;
                         0x00; 0x00; 0x00; 0x00; 0x50; 0x02; 0xff; 0xff;
                         0x00; 0x00; 0x00; 0x00 ];
     skb_pkt_type := 4 |}.

Definition two_questions : sk_buff :=
  frame ([ 0x12; 0x34; 0; 0; 0; 2; 0; 0; 0; 0; 0; 0 ]
         ++ [1; 97; 0; 0; 1; 0; 1; 1; 98; 0; 0; 1; 0; 1]).

End Dns.

(** ** The seccomp audit probe ([audit-seccomp.c]) *)

Module Audit.

Import CInt.
Local Open Scope prog_scope.

(** *** What the probe reads *)

(** The argument registers of the probed call, [PT_REGS_PARM1] to
    [PT_REGS_PARM3]. *)
Record pt_regs : Type := { parm1 : Z; parm2 : Z; parm3 : Z }.

(** The path [task->nsproxy->mnt_ns->ns.inum] through the task; a
    pointer that may be NULL is an [option]. *)
Record ns_common : Type := { inum : Z }.
Record mnt_namespace : Type := { ns : ns_common }.
Record nsproxy_t : Type := { mnt_ns : option mnt_namespace }.
Record task_struct : Type := {
  nsproxy : option nsproxy_t;
  task_comm : list byte
}.

(** The kernel at the time the probe fires: the current task, and the
    maps of [gadgettracermanager/bpf-maps.h] that the probe only reads,
    [filter] (mount namespace to [__u32]) and [containers] (mount
    namespace to the bytes of a [struct container]). *)
Record kernel : Type := {
  current_task : task_struct;
  current_pid_tgid : Z;
  filter : gmap Z Z;
  containers : gmap Z (list byte)
}.

(** Modelled from the spec: [struct event] of [audit-seccomp.h], which is
    not among the sources: process id (32 bits), mount namespace id (64
    bits), syscall number ([unsigned long]), disposition code ([int]),
    command name and container snapshot (byte buffers of fixed size). *)
Record event : Type := {
  pid : Z;
  mntns_id : Z;
  syscall : Z;
  code : Z;
  comm : list byte;
  container : list byte
}.

(** *** What the probe changes *)

Inductive map_id : Type := FilterMap | TmpEventMap | ContainersMap.

(** The slots of the per-CPU array [tmp_event] on this CPU, the calls of
    [bpf_map_lookup_elem] as (map, key) in program order, and the records
    written to the [events] perf map. *)
Record state : Type := {
  tmp_event : list event;
  lookups : list (map_id * Z);
  events : list event
}.

Definition log_lookup (m : map_id) (key : Z) : prog state unit :=
  modify (fun s => {| tmp_event := tmp_event s;
                      lookups := lookups s ++ [(m, key)];
                      events := events s |}).

(** [bpf_map_lookup_elem] on a hash map: the value, or NULL. *)
Definition bpf_map_lookup_elem {V} (id : map_id) (m : gmap Z V) (key : Z)
    : prog state (option V) :=
  _ <- log_lookup id key ;;
  ret (m !! key).

(** [bpf_map_lookup_elem(&tmp_event, &key)]: a pointer to slot [key] of
    the array (its index), or NULL past the end. *)
Definition lookup_tmp_event (key : Z) : prog state (option nat) :=
  _ <- log_lookup TmpEventMap key ;;
  s <- get ;;
  ret (if (0 <=? key) && (key <? Z.of_nat (length (tmp_event s)))
       then Some (Z.to_nat key) else None).

(** An assignment through the pointer [event]. *)
Definition store (slot : nat) (f : event -> event) : prog state unit :=
  modify (fun s => {| tmp_event := alter f slot (tmp_event s);
                      lookups := lookups s;
                      events := events s |}).

Definition set_pid (v : Z) (e : event) : event :=
  {| pid := v; mntns_id := mntns_id e; syscall := syscall e; code := code e;
     comm := comm e; container := container e |}.
Definition set_mntns_id (v : Z) (e : event) : event :=
  {| pid := pid e; mntns_id := v; syscall := syscall e; code := code e;
     comm := comm e; container := container e |}.
Definition set_syscall (v : Z) (e : event) : event :=
  {| pid := pid e; mntns_id := mntns_id e; syscall := v; code := code e;
     comm := comm e; container := container e |}.
Definition set_code (v : Z) (e : event) : event :=
  {| pid := pid e; mntns_id := mntns_id e; syscall := syscall e; code := v;
     comm := comm e; container := container e |}.
Definition set_comm (v : list byte) (e : event) : event :=
  {| pid := pid e; mntns_id := mntns_id e; syscall := syscall e; code := code e;
     comm := v; container := container e |}.
Definition set_container (v : list byte) (e : event) : event :=
  {| pid := pid e; mntns_id := mntns_id e; syscall := syscall e; code := code e;
     comm := comm e; container := v |}.

(** [bpf_perf_event_output(ctx, &events, BPF_F_CURRENT_CPU, event,
    sizeof event[0])]: the record that [event] points to, handed to the
    per-CPU channel. [event] comes from the lookup in [tmp_event], so the
    slot is there; the probe does not look at the helper's answer. *)
Definition bpf_perf_event_output (slot : nat) : prog state Z :=
  fun s =>
    match tmp_event s !! slot with
    | Some ev =>
        (Next 0, {| tmp_event := tmp_event s; lookups := lookups s;
                    events := events s ++ [ev] |})
    | None => (Next (- 14), s)
    end.

(** [BPF_CORE_READ(task, nsproxy, mnt_ns, ns.inum)]: the read through a
    NULL pointer fails and leaves 0. *)
Definition BPF_CORE_READ_mntns (task : task_struct) : Z :=
  match nsproxy task with
  | Some np =>
      match mnt_ns np with
      | Some m => to_u32 (inum (ns m))
      | None => 0
      end
  | None => 0
  end.

(** The [__u64 mntns_id] of the probe: the mount namespace of the current
    task, 0 when it cannot be resolved. *)
Definition resolved_mntns_id (k : kernel) : Z :=
  to_u64 (BPF_CORE_READ_mntns (current_task k)).

(** [bpf_get_current_comm(buf, size)]: the command name of the task up
    to its NUL, cut to [size - 1] bytes and padded with NUL to [size]. *)
Fixpoint bpf_get_current_comm (size : nat) (name : list byte) : list byte :=
  match size with
  | O => []
  | S O => [zero_byte]
  | S n =>
      match name with
      | b :: name' =>
          if byte_val b =? 0 then replicate size zero_byte
          else b :: bpf_get_current_comm n name'
      | [] => replicate size zero_byte
      end
  end.

Section Probe.

(** [sizeof(event->comm)] and [sizeof(event->container)], and whether
    the probe is compiled with [WITH_FILTER]. *)
Variable TASK_COMM_LEN : nat.
Variable CONTAINER_SIZE : nat.
Variable WITH_FILTER : bool.

Definition kprobe__audit_seccomp (ctx : pt_regs) (k : kernel) : prog state Z :=
  let syscall := to_u64 (parm1 ctx) in
  let code := to_int (parm3 ctx) in
  let task := current_task k in
  let mntns_id := resolved_mntns_id k in
  if mntns_id =? 0 then return_ 0 else
  _ <- (if WITH_FILTER then
          found <- bpf_map_lookup_elem FilterMap (filter k) mntns_id ;;
          match found with
          | None => return_ 0
          | Some _ => ret tt
          end
        else ret tt) ;;
  let zero := 0 in
  event <- lookup_tmp_event zero ;;
  match event with
  | None => return_ 0
  | Some event =>
      _ <- store event (set_pid (to_u32 (current_pid_tgid k))) ;;
      _ <- store event (set_mntns_id mntns_id) ;;
      _ <- store event (set_syscall syscall) ;;
      _ <- store event (set_code code) ;;
      _ <- store event
             (set_comm (bpf_get_current_comm TASK_COMM_LEN (task_comm task))) ;;
      container_entry <- bpf_map_lookup_elem ContainersMap (containers k) mntns_id ;;
      _ <- match container_entry with
           | Some entry =>
               (* bpf_probe_read_kernel(&event->container, sizeof(...), entry) *)
               store event (set_container (take CONTAINER_SIZE entry))
           | None =>
               (* __builtin_memset(&event->container, 0, sizeof(...)) *)
               store event (set_container (replicate CONTAINER_SIZE zero_byte))
           end ;;
      _ <- bpf_perf_event_output event ;;
      ret 0
  end.

End Probe.

(** *** A sample firing *)

Definition sample_task (inum : Z) : task_struct :=
  {| nsproxy := Some {| mnt_ns := Some {| ns := {| inum := inum |} |} |};
     task_comm := map byte_of [99; 97; 116] |}.

Definition sample_kernel (inum : Z) : kernel :=
  {| current_task := sample_task inum;
     current_pid_tgid := 4242 * 2 ^ 32 + 4243;
     filter := {[ 4026532000 := 1 ]};
     containers := {[ 4026532000 := map byte_of [7; 7; 7; 7] ]} |}.

Definition sample_ctx : pt_regs := {| parm1 := 59; parm2 := 0; parm3 := 2147418112 |}.

Definition stale_event : event :=
  {| pid := 1; mntns_id := 2; syscall := 3; code := 4;
     comm := map byte_of [120; 0; 0; 0; 0; 0; 0; 0];
     container := map byte_of [9; 9; 9; 9] |}.

Definition sample_state : state :=
  {| tmp_event := [stale_event]; lookups := []; events := [] |}.

(** *** The event of a firing *)

Definition add_lookups (s : state) (l : list (map_id * Z)) : state :=
  {| tmp_event := tmp_event s; lookups := lookups s ++ l; events := events s |}.

Definition with_filter (k : kernel) (f : gmap Z Z) : kernel :=
  {| current_task := current_task k; current_pid_tgid := current_pid_tgid k;
     filter := f; containers := containers k |}.

(** The record that a firing builds in the scratch slot. *)
Definition built_event (TASK_COMM_LEN CONTAINER_SIZE : nat) (ctx : pt_regs)
    (k : kernel) : event :=
  {| pid := to_u32 (current_pid_tgid k);
     mntns_id := resolved_mntns_id k;
     syscall := to_u64 (parm1 ctx);
     code := to_int (parm3 ctx);
     comm := bpf_get_current_comm TASK_COMM_LEN (task_comm (current_task k));
     container :=
       match containers k !! resolved_mntns_id k with
       | Some entry => take CONTAINER_SIZE entry
       | None => replicate CONTAINER_SIZE zero_byte
       end |}.

(** *** The ways through the probe *)

(** The filter lets the namespace of the task through. *)
Definition admitted_by (WITH_FILTER : bool) (k : kernel) : Prop :=
  WITH_FILTER = true -> is_Some (filter k !! resolved_mntns_id k).

(** The lookup of lines 40-44. *)
Definition filter_lookup (WITH_FILTER : bool) (k : kernel) : list (map_id * Z) :=
  if WITH_FILTER then [(FilterMap, resolved_mntns_id k)] else [].

(** All the lookups of a firing that reaches line 64, in program order. *)
Definition all_lookups (WITH_FILTER : bool) (k : kernel) : list (map_id * Z) :=
  filter_lookup WITH_FILTER k
  ++ [(TmpEventMap, 0); (ContainersMap, resolved_mntns_id k)].

(** The probe, started in [s], hands [ev] to the channel. *)
Definition emits (TASK_COMM_LEN CONTAINER_SIZE : nat) (WITH_FILTER : bool)
    (ctx : pt_regs) (k : kernel) (s : state) (ev : event) : Prop :=
  events (snd (kprobe__audit_seccomp TASK_COMM_LEN CONTAINER_SIZE WITH_FILTER ctx k s))
  = events s ++ [ev].

End Audit.

(** * Part II: the properties *)

(** Decide the comparisons of the goal that linear arithmetic settles. *)
Ltac z_ltb :=
  repeat match goal with
  | |- context [?a <? ?b] =>
      first [ rewrite (proj2 (Z.ltb_lt a b)) by lia
            | rewrite (proj2 (Z.ltb_ge a b)) by lia ]
  | |- context [?a =? ?b] =>
      first [ rewrite (proj2 (Z.eqb_eq a b)) by lia
            | rewrite (proj2 (Z.eqb_neq a b)) by lia ]
  end.

(** ** Integers and bytes *)

Module CIntFacts.

Import CInt.

Lemma to_unsigned_id w x : 0 <= x < 2 ^ w -> to_unsigned w x = x.
Proof. intros H. unfold to_unsigned. now apply Z.mod_small. Qed.

Lemma to_int_id x : - 2 ^ 31 <= x < 2 ^ 31 -> to_int x = x.
Proof.
  intros H. unfold to_int, to_u32, to_unsigned.
  destruct (Z_lt_dec x 0) as [Hn | Hp].
  - replace (x mod 2 ^ 32) with (x + 2 ^ 32).
    + destruct (Z.ltb_spec (x + 2 ^ 32) (2 ^ 31)); lia.
    + apply Z.mod_unique with (q := -1); lia.
  - rewrite Z.mod_small by lia.
    destruct (Z.ltb_spec x (2 ^ 31)); lia.
Qed.

End CIntFacts.

Lemma byte_val_range b : 0 <= byte_val b < 256.
Proof.
  unfold byte_val. pose proof (Byte.to_N_bounded b) as H.
  split; [apply N2Z.is_nonneg |].
  change 256 with (Z.of_N 256). apply N2Z.inj_lt. lia.
Qed.

Lemma byte_val_of z : 0 <= z < 256 -> byte_val (byte_of z) = z.
Proof.
  intros H. unfold byte_val, byte_of. rewrite Z.mod_small by lia.
  destruct (Byte.of_N (Z.to_N z)) as [b |] eqn:E.
  - apply Byte.to_of_N in E. rewrite E. lia.
  - apply Byte.of_N_None_iff in E. lia.
Qed.

(** ** The DNS query probe *)

Module DnsFacts.

Import CInt CIntFacts Dns.
Local Open Scope prog_scope.

(** *** The loop over the labels *)

Lemma frame_byte_range skb off b : frame_byte skb off = Some b -> 0 <= b < 256.
Proof.
  unfold frame_byte. destruct (off <? 0); [discriminate |].
  destruct (skb_data skb !! Z.to_nat off) as [x |]; simpl; [| discriminate].
  intros [= <-]. apply byte_val_range.
Qed.

Lemma label_start_nonneg skb k : label_start skb k -> 0 <= k.
Proof.
  induction 1 as [| k l _ IH Hb _]; [lia |].
  apply frame_byte_range in Hb. lia.
Qed.

(** Length bytes follow one another: between two of them lies the whole
    label of the first. *)
Lemma label_start_chain skb (n : nat) :
  forall a b,
    label_start skb a -> label_start skb b -> a <= b -> b <= Z.of_nat n ->
    a = b \/
    exists l, frame_byte skb (NAME_OFF + a) = Some l /\ l <> 0 /\ a + l + 1 <= b.
Proof.
  induction n as [| n IH]; intros a b Ha Hb Hab Hn.
  - pose proof (label_start_nonneg _ _ Ha). left. lia.
  - destruct Hb as [| p l Hp Hpl Hl0].
    + pose proof (label_start_nonneg _ _ Ha). left. lia.
    + pose proof (frame_byte_range _ _ _ Hpl) as Hlr.
      pose proof (label_start_nonneg _ _ Hp) as Hp0.
      destruct (Z_le_gt_dec a p) as [Hle | Hgt].
      * destruct (IH a p Ha Hp Hle ltac:(lia)) as [-> | (l' & E & Hl' & Hle')].
        -- right. exists l. repeat split; [assumption | assumption | lia].
        -- right. exists l'. repeat split; [assumption | assumption | lia].
      * destruct Ha as [| q m Hq Hqm Hm0]; [lia |].
        pose proof (frame_byte_range _ _ _ Hqm) as Hmr.
        pose proof (label_start_nonneg _ _ Hq) as Hq0.
        destruct (Z_le_gt_dec p q) as [Hpq | Hqp].
        -- destruct (IH p q Hp Hq Hpq ltac:(lia)) as [-> | (l' & E & Hl' & Hle')].
           ++ left. congruence.
           ++ assert (l' = l) by congruence. subst l'. lia.
        -- destruct (IH q p Hq Hp ltac:(lia) ltac:(lia)) as [-> | (l' & E & Hl' & Hle')].
           ++ left. congruence.
           ++ assert (l' = m) by congruence. subst l'. lia.
Qed.

Lemma label_start_before skb a b :
  label_start skb a -> label_start skb b -> a < b ->
  exists l, frame_byte skb (NAME_OFF + a) = Some l /\ l <> 0 /\ a + l + 1 <= b.
Proof.
  intros Ha Hb Hab.
  pose proof (label_start_nonneg _ _ Hb) as Hb0.
  destruct (label_start_chain skb (Z.to_nat b) a b Ha Hb) as [-> | H]; try lia.
  exact H.
Qed.

(** The terminator is the first zero length byte, and the last length
    byte of all. *)
Lemma zero_label_last skb k j : zero_label skb k -> label_start skb j -> j <= k.
Proof.
  intros [Hk Hz] Hj. destruct (Z_le_gt_dec j k) as [| Hgt]; [assumption |].
  destruct (label_start_before skb k j Hk Hj) as (l & E & Hl & _); [lia |].
  congruence.
Qed.

Lemma zero_label_first skb k j :
  zero_label skb k -> label_start skb j -> j < k ->
  exists l, frame_byte skb (NAME_OFF + j) = Some l /\ l <> 0.
Proof.
  intros [Hk _] Hj Hlt.
  destruct (label_start_before skb j k Hj Hk Hlt) as (l & E & Hl & _). eauto.
Qed.

Lemma cut_label_last skb k j : cut_label skb k -> label_start skb j -> j <= k.
Proof.
  intros [Hk Hz] Hj. destruct (Z_le_gt_dec j k) as [| Hgt]; [assumption |].
  destruct (label_start_before skb k j Hk Hj) as (l & E & Hl & _); [lia |].
  congruence.
Qed.

Section LoopFacts.

Variable MAX_DNS_NAME : Z.
Hypothesis MAX_range : 0 <= MAX_DNS_NAME < 2 ^ 32.

Variable skb : sk_buff.

Lemma label_loop_from_jump fuel :
  forall st fuel' w,
    0 <= i st <= MAX_DNS_NAME ->
    0 <= skip st < 256 ->
    (Z.to_nat (MAX_DNS_NAME - i st) <= fuel)%nat ->
    (Z.to_nat (MAX_DNS_NAME - (i st + skip st)) <= fuel')%nat ->
    (st' <- label_loop_from MAX_DNS_NAME fuel skb st ;; ret (i st')) w
    = (j <- jump_loop_from MAX_DNS_NAME fuel' skb (i st + skip st) ;; ret (cap MAX_DNS_NAME j)) w.
Proof.
  induction fuel as [| fuel IH]; intros [i0 s0] fuel' w Hi Hs Hf Hf';
    unfold label_loop_from, jump_loop_from in *; simpl in *.
  - assert (i0 = MAX_DNS_NAME) as -> by lia.
    rewrite Z.ltb_irrefl.
    destruct fuel'; simpl; unfold bind, ret, cap; simpl; now z_ltb.
  - destruct (Z.ltb_spec i0 MAX_DNS_NAME) as [Hlt | Hge].
    + destruct (Z.eq_dec s0 0) as [-> | Hs0].
      * (* a length byte is read *)
        rewrite Z.add_0_r in *.
        destruct fuel' as [| fuel']; [lia |]. simpl.
        z_ltb.
        unfold label_body, jump_body, bind, load_byte in *. simpl.
        destruct (frame_byte skb (NAME_OFF + i0)) as [b |] eqn:Hb; [| reflexivity].
        pose proof (frame_byte_range _ _ _ Hb) as Hr.
        rewrite to_int_id by lia.
        destruct (Z.eqb_spec b 0) as [-> | Hb0]; simpl.
        -- unfold ret, cap. simpl. now z_ltb.
        -- unfold to_u32. rewrite !to_unsigned_id by lia.
           replace (i0 + b + 1) with (i0 + 1 + b) by lia.
           apply (IH {| i := i0 + 1; skip := b |}); simpl; lia.
      * (* inside a label *)
        unfold label_body at 1. unfold bind in *. simpl. z_ltb. simpl.
        unfold to_u32. rewrite !to_unsigned_id by lia.
        replace (i0 + s0) with (i0 + 1 + (s0 - 1)) by lia.
        apply (IH {| i := i0 + 1; skip := s0 - 1 |}); simpl; lia.
    + assert (i0 = MAX_DNS_NAME) as -> by lia.
      destruct fuel'; simpl; unfold bind, ret, cap; simpl; now z_ltb.
Qed.

Lemma label_load_from j j' a : j <= j' -> label_load MAX_DNS_NAME skb j' a -> label_load MAX_DNS_NAME skb j a.
Proof. intros Hle (k & -> & Hk & Hs). exists k. repeat split; [lia | lia | assumption]. Qed.

Lemma jump_loop_from_spec fuel :
  forall j w,
    label_start skb j ->
    (Z.to_nat (MAX_DNS_NAME - j) <= fuel)%nat ->
    exists out new,
      jump_loop_from MAX_DNS_NAME fuel skb j w
      = (out, {| loads := loads w ++ new; events := events w |}) /\
      Forall (label_load MAX_DNS_NAME skb j) new /\
      match out with
      | Next j' =>
          label_start skb j' /\ j <= j' /\
          (j' < MAX_DNS_NAME -> frame_byte skb (NAME_OFF + j') = Some 0)
      | Return rc =>
          rc = 0 /\ exists k, j <= k < MAX_DNS_NAME /\ cut_label skb k
      | Stuck => False
      end.
Proof.
  induction fuel as [| fuel IH]; intros j w Hj Hf;
    unfold jump_loop_from in *; simpl.
  - z_ltb. exists (Next j), []. rewrite app_nil_r.
    destruct w; repeat split; [constructor | assumption | lia | lia].
  - destruct (Z.ltb_spec j MAX_DNS_NAME) as [Hlt | Hge].
    + unfold jump_body at 1. unfold bind, load_byte. simpl.
      destruct (frame_byte skb (NAME_OFF + j)) as [b |] eqn:Hb.
      * pose proof (frame_byte_range _ _ _ Hb) as Hr.
        assert (label_load MAX_DNS_NAME skb j (NAME_OFF + j, 1)) as Hload
          by (exists j; repeat split; [lia | lia | assumption]).
        destruct (Z.eqb_spec b 0) as [-> | Hb0]; simpl.
        -- exists (Next j), [(NAME_OFF + j, 1)]. unfold ret, log_load. simpl.
           repeat split; [now constructor | assumption | lia | auto].
        -- destruct (IH (j + b + 1) (log_load (NAME_OFF + j) 1 w))
             as (out & new & E & Hnew & Hout);
             [now apply label_next with (l := b) | lia |].
           exists out, ((NAME_OFF + j, 1) :: new).
           rewrite E. unfold log_load. simpl. rewrite <- app_assoc. simpl.
           repeat split.
           ++ constructor; [assumption |].
              eapply Forall_impl; [exact Hnew |].
              intros a. apply label_load_from. lia.
           ++ destruct out as [j' | rc |]; [| | assumption].
              ** destruct Hout as (H1 & H2 & H3). repeat split; [assumption | lia | assumption].
              ** destruct Hout as (H1 & k & H2 & H3). split; [assumption |].
                 exists k. split; [lia | assumption].
      * exists (Return 0), [(NAME_OFF + j, 1)]. unfold log_load. simpl.
        repeat split.
        -- constructor; [| constructor].
           exists j; repeat split; [lia | lia | assumption].
        -- exists j. repeat split; [lia | lia | assumption | assumption].
    + exists (Next j), []. rewrite app_nil_r. unfold ret.
      destruct w; repeat split; [constructor | assumption | lia | lia].
Qed.

Lemma cap_range x : 0 <= x -> 0 <= cap MAX_DNS_NAME x <= MAX_DNS_NAME.
Proof. intros Hx. unfold cap. destruct (Z.ltb_spec x MAX_DNS_NAME); lia. Qed.

(** The loop of the probe, read off the frame: it leaves with [i] on
    the terminator or on the cap, or the program ends on a length byte
    that is not in the frame. *)
Lemma label_loop_spec fuel w :
  (Z.to_nat MAX_DNS_NAME <= fuel)%nat ->
  exists out new,
    label_loop MAX_DNS_NAME fuel skb w
    = (out, {| loads := loads w ++ new; events := events w |}) /\
    Forall (label_load MAX_DNS_NAME skb 0) new /\
    match out with
    | Next st =>
        0 <= i st <= MAX_DNS_NAME /\
        (i st < MAX_DNS_NAME -> zero_label skb (i st)) /\
        (i st = MAX_DNS_NAME -> exists k, label_start skb k /\ MAX_DNS_NAME <= k)
    | Return rc => rc = 0 /\ exists k, 0 <= k < MAX_DNS_NAME /\ cut_label skb k
    | Stuck => False
    end.
Proof.
  intros Hf.
  assert ((st' <- label_loop MAX_DNS_NAME fuel skb ;; ret (i st')) w
          = (j <- jump_loop_from MAX_DNS_NAME fuel skb 0 ;; ret (cap MAX_DNS_NAME j)) w) as E
    by (apply (label_loop_from_jump fuel {| i := 0; skip := 0 |} fuel w);
        simpl; lia).
  destruct (jump_loop_from_spec fuel 0 w (label_first skb) ltac:(lia))
    as (out & new & Ej & Hnew & Hout).
  unfold bind in E. rewrite Ej in E.
  destruct (label_loop MAX_DNS_NAME fuel skb w) as [outl wl].
  destruct outl as [st | rc |], out as [j | rc' |]; unfold ret in E;
    try discriminate; try contradiction.
  - injection E as Ei Ew. subst wl.
    exists (Next st), new. repeat split; try assumption.
    + destruct Hout as (_ & H0 & _). pose proof (cap_range j H0). lia.
    + destruct Hout as (_ & H0 & _). pose proof (cap_range j H0). lia.
    + destruct Hout as (Hs & _ & _). unfold cap in Ei.
      destruct (Z.ltb_spec j MAX_DNS_NAME); [subst; assumption | lia].
    + destruct Hout as (_ & _ & Hz). unfold cap in Ei.
      destruct (Z.ltb_spec j MAX_DNS_NAME); [subst; auto | lia].
    + intros Hi. destruct Hout as (Hs & _ & Hz). unfold cap in Ei.
      destruct (Z.ltb_spec j MAX_DNS_NAME); [lia |]. exists j. auto.
  - injection E as Erc Ew. subst wl rc'.
    exists (Return rc), new. repeat split; try assumption; apply Hout.
Qed.

(** The length byte on which the probe stops is fixed by the frame. *)
Lemma label_loop_zero_label fuel w k :
  (Z.to_nat MAX_DNS_NAME <= fuel)%nat ->
  zero_label skb k -> k < MAX_DNS_NAME ->
  exists st w', label_loop MAX_DNS_NAME fuel skb w = (Next st, w') /\ i st = k.
Proof.
  intros Hf Hk Hlt.
  destruct (label_loop_spec fuel w Hf) as (out & new & E & _ & Hout).
  destruct out as [st | rc |]; [| | contradiction].
  - exists st, {| loads := loads w ++ new; events := events w |}.
    split; [assumption |]. destruct Hout as (Hr & Hz & Hc).
    destruct (Z_lt_ge_dec (i st) MAX_DNS_NAME) as [Hi | Hi].
    + specialize (Hz Hi).
      pose proof (zero_label_last _ _ _ Hk (proj1 Hz)).
      pose proof (zero_label_last _ _ _ Hz (proj1 Hk)). lia.
    + destruct (Hc ltac:(lia)) as (k' & Hk' & Hle).
      pose proof (zero_label_last _ _ _ Hk Hk'). lia.
  - destruct Hout as (_ & k' & Hr & Hcut).
    pose proof (zero_label_last _ _ _ Hk (proj1 Hcut)) as H1.
    pose proof (cut_label_last _ _ _ Hcut (proj1 Hk)) as H2.
    assert (k' = k) by lia. subst k'.
    destruct Hk as [_ Hk], Hcut as [_ Hcut]. congruence.
Qed.

Lemma label_loop_capped fuel w k :
  (Z.to_nat MAX_DNS_NAME <= fuel)%nat ->
  label_start skb k -> MAX_DNS_NAME <= k ->
  exists st w', label_loop MAX_DNS_NAME fuel skb w = (Next st, w') /\ i st = MAX_DNS_NAME.
Proof.
  intros Hf Hk Hle.
  destruct (label_loop_spec fuel w Hf) as (out & new & E & _ & Hout).
  destruct out as [st | rc |]; [| | contradiction].
  - exists st, {| loads := loads w ++ new; events := events w |}.
    split; [assumption |]. destruct Hout as (Hr & Hz & Hc).
    destruct (Z_lt_ge_dec (i st) MAX_DNS_NAME) as [Hi | Hi]; [| lia].
    pose proof (zero_label_last _ _ _ (Hz Hi) Hk). lia.
  - destruct Hout as (_ & k' & Hr & Hcut).
    pose proof (cut_label_last _ _ _ Hcut Hk). lia.
Qed.

(** The captured length is the index at which the loop stops. *)
Lemma name_length_loop fuel w :
  (Z.to_nat MAX_DNS_NAME <= fuel)%nat ->
  name_length MAX_DNS_NAME fuel skb w
  = match label_loop MAX_DNS_NAME fuel skb w with
    | (Next st, w') => (Next (i st), w')
    | (Return rc, w') => (Return rc, w')
    | (Stuck, w') => (Stuck, w')
    end.
Proof.
  intros Hf. unfold name_length, bind.
  destruct (label_loop_spec fuel w Hf) as (out & new & E & _ & Hout).
  rewrite E. destruct out as [st | rc |]; try reflexivity.
  destruct Hout as (Hr & _). unfold ret, to_u32.
  destruct (Z.ltb_spec (i st) MAX_DNS_NAME);
    rewrite to_unsigned_id by lia; [reflexivity | f_equal; f_equal; lia].
Qed.

(** The counter of the probe and the direct walk give the same length,
    load the same bytes and end the program on the same frames. *)
Lemma name_length_jump_eq fuel fuel' w :
  (Z.to_nat MAX_DNS_NAME <= fuel)%nat ->
  (Z.to_nat MAX_DNS_NAME <= fuel')%nat ->
  name_length MAX_DNS_NAME fuel skb w = name_length_jump MAX_DNS_NAME fuel' skb w.
Proof.
  intros Hf Hf'. rewrite name_length_loop by assumption.
  assert ((st' <- label_loop MAX_DNS_NAME fuel skb ;; ret (i st')) w
          = (j <- jump_loop MAX_DNS_NAME fuel' skb ;; ret (cap MAX_DNS_NAME j)) w) as E
    by (apply (label_loop_from_jump fuel {| i := 0; skip := 0 |} fuel' w);
        simpl; lia).
  unfold name_length_jump. unfold bind, ret in *.
  destruct (label_loop MAX_DNS_NAME fuel skb w) as [[st | rc |] wl];
    destruct (jump_loop MAX_DNS_NAME fuel' skb w) as [[j | rc' |] wj];
    try discriminate; try assumption.
Qed.

Lemma name_length_spec fuel w :
  (Z.to_nat MAX_DNS_NAME <= fuel)%nat ->
  exists out new,
    name_length MAX_DNS_NAME fuel skb w = (out, add_loads w new) /\
    Forall (label_load MAX_DNS_NAME skb 0) new /\
    match out with
    | Next len =>
        0 <= len <= MAX_DNS_NAME /\
        (len < MAX_DNS_NAME -> zero_label skb len) /\
        (len = MAX_DNS_NAME -> exists k, label_start skb k /\ MAX_DNS_NAME <= k)
    | Return rc => rc = 0 /\ exists k, 0 <= k < MAX_DNS_NAME /\ cut_label skb k
    | Stuck => False
    end.
Proof.
  intros Hf. rewrite name_length_loop by assumption.
  destruct (label_loop_spec fuel w Hf) as (out & new & E & Hnew & Hout).
  rewrite E. destruct out as [st | rc |]; [| | contradiction].
  - exists (Next (i st)), new. auto.
  - exists (Return rc), new. auto.
Qed.

End LoopFacts.

(** *** The filters and the emission *)

Lemma frame_byte_Some skb off b :
  frame_byte skb off = Some b ->
  0 <= off < Z.of_nat (length (skb_data skb)).
Proof.
  unfold frame_byte. destruct (Z.ltb_spec off 0); [discriminate |].
  destruct (skb_data skb !! Z.to_nat off) as [x |] eqn:E; [| discriminate].
  intros _. apply lookup_lt_Some in E. lia.
Qed.

Lemma frame_half_Some skb off v :
  frame_half skb off = Some v ->
  exists hi lo,
    frame_byte skb off = Some hi /\ frame_byte skb (off + 1) = Some lo /\
    v = hi * 256 + lo /\ 0 <= v < 2 ^ 16.
Proof.
  unfold frame_half.
  destruct (frame_byte skb off) as [hi |] eqn:Hhi; [| discriminate].
  destruct (frame_byte skb (off + 1)) as [lo |] eqn:Hlo; [| discriminate].
  intros [= <-]. exists hi, lo.
  pose proof (frame_byte_range _ _ _ Hhi). pose proof (frame_byte_range _ _ _ Hlo).
  assert (Z.lor (Z.shiftl hi 8) lo = hi * 256 + lo) as ->.
  { rewrite Z.shiftl_mul_pow2 by lia. change (2 ^ 8) with 256.
    rewrite <- Z.add_nocarry_lor; [reflexivity |].
    apply Z.bits_inj'. intros n Hn. rewrite Z.land_spec, Z.bits_0.
    destruct (Z_lt_ge_dec n 8).
    - change 256 with (2 ^ 8). rewrite Z.mul_pow2_bits_low by lia. reflexivity.
    - replace (Z.testbit lo n) with false; [apply andb_false_r |].
      symmetry. destruct (Z.eq_dec lo 0) as [-> | ]; [apply Z.bits_0 |].
      apply Z.bits_above_log2; [lia |].
      assert (Z.log2 lo < 8) by (apply Z.log2_lt_pow2; lia). lia. }
  repeat split; try reflexivity; lia.
Qed.

Lemma validate_accepted target skb w :
  accepted target skb ->
  validate target skb w = (Next tt, add_loads w filter_loads).
Proof.
  intros (H1 & H2 & (v & H3 & Hqr) & H4 & H5 & H6).
  destruct (frame_half_Some _ _ _ H3) as (hi & lo & _ & _ & _ & Hv).
  unfold validate, bind, load_half, load_byte, add_loads, log_load.
  rewrite H1. simpl. rewrite H2. simpl. rewrite H3. simpl.
  unfold to_u16. rewrite to_unsigned_id by lia. rewrite Hqr. simpl.
  rewrite H4. simpl. rewrite H5. simpl. rewrite H6. simpl.
  unfold ret. repeat rewrite <- app_assoc. reflexivity.
Qed.

(** The probe leaves at filter [n]: the frame is not accepted and the
    loads are those of the filters up to that one. *)
Ltac leaves_at n :=
  right;
  match goal with E : (Return 0, _) = (_, _) |- _ => injection E as <- <- end;
  split; [reflexivity |]; split;
  [ intros (? & ? & (? & ? & ?) & ? & ? & ?); congruence
  | exists n; split;
    [lia | unfold add_loads; simpl; now rewrite <- ?app_assoc] ].

(** A frame that is not accepted leaves the probe at the first filter it
    fails, with return value 0 and after the loads of the filters up to
    that one only. *)
Lemma validate_inv target skb w out w' :
  validate target skb w = (out, w') ->
  (out = Next tt /\ accepted target skb /\ w' = add_loads w filter_loads) \/
  (out = Return 0 /\ ~ accepted target skb /\
   exists n, (n < 6)%nat /\ w' = add_loads w (take (S n) filter_loads)).
Proof.
  unfold validate, bind, load_half, load_byte, return_, ret, log_load; simpl.
  intros E.
  destruct (frame_half skb offsetof_ethhdr_h_proto) as [p |] eqn:H1;
    [| leaves_at 0%nat].
  simpl in E. destruct (Z.eqb_spec p ETH_P_IP) as [-> | Hp]; simpl in E;
    [| leaves_at 0%nat].
  destruct (frame_byte skb (ETH_HLEN + offsetof_iphdr_protocol)) as [q |] eqn:H2;
    [| leaves_at 1%nat].
  simpl in E. destruct (Z.eqb_spec q IPPROTO_UDP) as [-> | Hq]; simpl in E;
    [| leaves_at 1%nat].
  destruct (frame_half skb (DNS_OFF + offsetof_dnshdr_flags)) as [v |] eqn:H3;
    [| leaves_at 2%nat].
  destruct (frame_half_Some _ _ _ H3) as (hi & lo & _ & _ & _ & Hv).
  simpl in E. unfold to_u16 in E. rewrite to_unsigned_id in E by lia.
  destruct (Z.eqb_spec (dnsflags_qr target {| flags := v |}) 0) as [Hqr | Hqr];
    simpl in E; [| leaves_at 2%nat].
  destruct (frame_half skb (DNS_OFF + offsetof_dnshdr_qdcount)) as [qd |] eqn:H4;
    [| leaves_at 3%nat].
  simpl in E. destruct (Z.eqb_spec qd 1) as [-> | Hqd]; simpl in E;
    [| leaves_at 3%nat].
  destruct (frame_half skb (DNS_OFF + offsetof_dnshdr_ancount)) as [an |] eqn:H5;
    [| leaves_at 4%nat].
  simpl in E. destruct (Z.eqb_spec an 0) as [-> | Han]; simpl in E;
    [| leaves_at 4%nat].
  destruct (frame_half skb (DNS_OFF + offsetof_dnshdr_nscount)) as [ns |] eqn:H6;
    [| leaves_at 5%nat].
  simpl in E. destruct (Z.eqb_spec ns 0) as [-> | Hns]; simpl in E;
    [| leaves_at 5%nat].
  left. injection E as <- <-. split; [reflexivity |]. split.
  - repeat split; try assumption. exists v. split; assumption.
  - unfold add_loads. simpl. now rewrite <- !app_assoc.
Qed.

Lemma emit_spec MAX_DNS_NAME skb len q w :
  0 <= len ->
  frame_half skb (NAME_OFF + len + 1) = Some q ->
  emit MAX_DNS_NAME skb len w
  = (Next 0,
     {| loads := loads w ++ name_loads len ++ [(NAME_OFF + len + 1, 2)];
        events := events w ++ [query_event MAX_DNS_NAME skb len q] |}).
Proof.
  intros Hlen Hq.
  destruct (frame_half_Some _ _ _ Hq) as (hi & lo & _ & Hlo & _ & Hr).
  apply frame_byte_Some in Hlo.
  unfold emit, bind, name_loads, query_event, captured_name.
  destruct (Z.ltb_spec 0 len) as [Hpos | Hzero].
  - unfold bpf_skb_load_bytes.
    assert ((0 <=? NAME_OFF) && (NAME_OFF + len <=? Z.of_nat (length (skb_data skb))) = true) as ->.
    { apply andb_true_intro. split; [reflexivity |]. apply Z.leb_le. lia. }
    unfold ret, load_half, bpf_perf_event_output, log_load. simpl.
    rewrite Hq. simpl. unfold to_u16. rewrite to_unsigned_id by lia.
    rewrite drop_replicate. rewrite <- !app_assoc. reflexivity.
  - assert (len = 0) as -> by lia.
    unfold ret, load_half, bpf_perf_event_output, log_load. simpl.
    rewrite Hq. simpl. unfold to_u16. rewrite to_unsigned_id by lia.
    rewrite Nat.sub_0_r. reflexivity.
Qed.

Lemma emit_cut MAX_DNS_NAME skb len w :
  frame_half skb (NAME_OFF + len + 1) = None ->
  emit MAX_DNS_NAME skb len w
  = (Return 0, add_loads w (name_loads len ++ [(NAME_OFF + len + 1, 2)])).
Proof.
  intros Hq. unfold emit, bind, name_loads, add_loads.
  destruct (Z.ltb_spec 0 len) as [Hpos | Hzero].
  - unfold bpf_skb_load_bytes.
    destruct ((0 <=? NAME_OFF) && (NAME_OFF + len <=? Z.of_nat (length (skb_data skb))));
      unfold ret, load_half, log_load; simpl; rewrite Hq; simpl;
      rewrite <- !app_assoc; reflexivity.
  - unfold ret, load_half, log_load. simpl. rewrite Hq. reflexivity.
Qed.

Lemma bpf_prog1_unfold MAX_DNS_NAME target fuel skb w :
  bpf_prog1 MAX_DNS_NAME target fuel skb w
  = match validate target skb w with
    | (Next _, w1) =>
        match name_length MAX_DNS_NAME fuel skb w1 with
        | (Next len, w2) => emit MAX_DNS_NAME skb len w2
        | (Return rc, w2) => (Return rc, w2)
        | (Stuck, w2) => (Stuck, w2)
        end
    | (Return rc, w1) => (Return rc, w1)
    | (Stuck, w1) => (Stuck, w1)
    end.
Proof.
  unfold bpf_prog1, bind.
  destruct (validate target skb w) as [[[] | rc |] w1]; reflexivity.
Qed.

Lemma bpf_prog1_verdict MAX_DNS_NAME target fuel skb w :
  0 <= MAX_DNS_NAME < 2 ^ 32 ->
  (Z.to_nat MAX_DNS_NAME <= fuel)%nat ->
  exists out ls evs,
    bpf_prog1 MAX_DNS_NAME target fuel skb w
    = (out, {| loads := loads w ++ ls; events := events w ++ evs |}) /\
    verdict MAX_DNS_NAME target skb out ls evs.
Proof.
  intros Hmax Hf. rewrite bpf_prog1_unfold.
  destruct (validate target skb w) as [out1 w1] eqn:Ev.
  destruct (validate_inv _ _ _ _ _ Ev) as [(-> & Hacc & ->) | (-> & Hrej & n & Hn & ->)].
  - destruct (name_length_spec MAX_DNS_NAME Hmax skb fuel (add_loads w filter_loads) Hf)
      as (out & new & E & Hnew & Hout).
    rewrite E. destruct out as [len | rc |]; [| | contradiction].
    + destruct Hout as (Hr & Hz & Hc).
      destruct (frame_half skb (NAME_OFF + len + 1)) as [q |] eqn:Hq.
      * rewrite (emit_spec _ _ _ q) by (assumption || lia).
        eexists _, _, _. split; [| now apply emitted with (len := len) (q := q) (new := new)].
        unfold add_loads. simpl. rewrite <- !app_assoc. reflexivity.
      * rewrite emit_cut by assumption.
        eexists _, _, _. split; [| now apply qtype_cut with (len := len) (new := new)].
        unfold add_loads. simpl. rewrite <- !app_assoc, app_nil_r. reflexivity.
    + destruct Hout as (-> & k & Hk & Hcut).
      eexists _, _, _. split; [| now apply name_cut with (k := k) (new := new)].
      unfold add_loads. simpl. rewrite <- !app_assoc, app_nil_r. reflexivity.
  - eexists _, _, _. split; [| now apply rejected with (n := n)].
    unfold add_loads. simpl. rewrite app_nil_r. reflexivity.
Qed.

(** Every run of the probe comes to its end, and returns 0. *)
Lemma bpf_prog1_total MAX_DNS_NAME target fuel skb w :
  0 <= MAX_DNS_NAME < 2 ^ 32 ->
  (Z.to_nat MAX_DNS_NAME <= fuel)%nat ->
  exists w', run (bpf_prog1 MAX_DNS_NAME target fuel skb) w = Some (0, w').
Proof.
  intros Hmax Hf.
  destruct (bpf_prog1_verdict MAX_DNS_NAME target fuel skb w Hmax Hf)
    as (out & ls & evs & E & Hv).
  unfold run. rewrite E. destruct Hv; eauto.
Qed.

(** The length that the probe captures, read off the frame. *)
Lemma name_length_of MAX_DNS_NAME skb fuel len w :
  0 <= MAX_DNS_NAME < 2 ^ 32 ->
  (Z.to_nat MAX_DNS_NAME <= fuel)%nat ->
  len <= MAX_DNS_NAME ->
  (len < MAX_DNS_NAME -> zero_label skb len) ->
  (len = MAX_DNS_NAME -> exists k, label_start skb k /\ MAX_DNS_NAME <= k) ->
  exists w', name_length MAX_DNS_NAME fuel skb w = (Next len, w').
Proof.
  intros Hmax Hf Hle Hz Hc. rewrite name_length_loop by assumption.
  destruct (Z_lt_ge_dec len MAX_DNS_NAME) as [Hlt | Hge].
  - destruct (label_loop_zero_label MAX_DNS_NAME Hmax skb fuel w len Hf (Hz Hlt) Hlt)
      as (st & w' & -> & <-). eauto.
  - destruct (Hc ltac:(lia)) as (k & Hk & Hkle).
    destruct (label_loop_capped MAX_DNS_NAME Hmax skb fuel w k Hf Hk Hkle)
      as (st & w' & -> & E). exists w'. repeat f_equal. lia.
Qed.

(** *** Runs only add to what was there *)

Lemma app_effects_nil_l d : app_effects no_effects d = d.
Proof. destruct d. reflexivity. Qed.

Lemma app_effects_nil_r w : app_effects w no_effects = w.
Proof. destruct w. unfold app_effects. simpl. now rewrite !app_nil_r. Qed.

Lemma app_effects_assoc w d e :
  app_effects (app_effects w d) e = app_effects w (app_effects d e).
Proof. unfold app_effects. simpl. now rewrite <- !app_assoc. Qed.

Lemma framed_ret {A} (a : A) : framed (ret a).
Proof. intros w. unfold ret. simpl. now rewrite app_effects_nil_r. Qed.

Lemma framed_return_ {A} rc : framed (@return_ effects A rc).
Proof. intros w. unfold return_. simpl. now rewrite app_effects_nil_r. Qed.

Lemma framed_stuck {A} : framed (@stuck effects A).
Proof. intros w. unfold stuck. simpl. now rewrite app_effects_nil_r. Qed.

Lemma framed_bind {A B} (m : prog effects A) (k : A -> prog effects B) :
  framed m -> (forall a, framed (k a)) -> framed (bind m k).
Proof.
  intros Hm Hk w. unfold bind. rewrite (Hm w).
  destruct (m no_effects) as [[a | rc |] d]; simpl; try reflexivity.
  rewrite (Hk a (app_effects w d)), (Hk a d). simpl.
  now rewrite app_effects_assoc.
Qed.

Lemma app_effects_log_load w off size :
  app_effects w (log_load off size no_effects) = log_load off size w.
Proof. unfold app_effects, log_load. simpl. now rewrite app_nil_r. Qed.

Lemma framed_load_byte skb off : framed (load_byte skb off).
Proof.
  intros w. unfold load_byte.
  destruct (frame_byte skb off); simpl; now rewrite app_effects_log_load.
Qed.

Lemma framed_load_half skb off : framed (load_half skb off).
Proof.
  intros w. unfold load_half.
  destruct (frame_half skb off); simpl; now rewrite app_effects_log_load.
Qed.

Lemma framed_bpf_skb_load_bytes skb off to len :
  framed (bpf_skb_load_bytes skb off to len).
Proof.
  intros w. unfold bpf_skb_load_bytes.
  destruct ((0 <=? off) && (off + len <=? Z.of_nat (length (skb_data skb))));
    simpl; now rewrite app_effects_log_load.
Qed.

Lemma framed_bpf_perf_event_output ev : framed (bpf_perf_event_output ev).
Proof.
  intros w. unfold bpf_perf_event_output, app_effects. simpl.
  now rewrite app_nil_r.
Qed.

Lemma framed_for_loop {S} fuel cond incr (body : S -> prog effects (ctl * S)) :
  (forall s, framed (body s)) ->
  forall s, framed (for_loop fuel cond incr body s).
Proof.
  intros Hbody. induction fuel as [| fuel IH]; intros s; simpl.
  - destruct (cond s); [apply framed_stuck | apply framed_ret].
  - destruct (cond s); [| apply framed_ret].
    apply framed_bind; [apply Hbody |].
    intros [[] s']; [apply IH | apply framed_ret].
Qed.

Create HintDb framed.

#[local] Hint Resolve framed_ret framed_return_ framed_stuck framed_load_byte
  framed_load_half framed_bpf_skb_load_bytes framed_bpf_perf_event_output
  : framed.

Ltac framed_step :=
  match goal with
  | |- framed (bind _ _) => apply framed_bind; [| intros ?]
  | |- framed (if ?c then _ else _) => destruct c
  | |- framed (for_loop _ _ _ _ _) => apply framed_for_loop; intros ?
  | |- framed _ => solve [auto with framed]
  end.

Lemma framed_bpf_prog1 MAX_DNS_NAME target fuel skb :
  framed (bpf_prog1 MAX_DNS_NAME target fuel skb).
Proof.
  unfold bpf_prog1, validate, name_length, label_loop, label_loop_from,
    label_body, emit.
  repeat framed_step.
Qed.

(** *** Fuel *)

(** A loop that came to its end comes to the same end with more fuel. *)
Lemma for_loop_more_fuel {W S} (cond : S -> bool) (incr : S -> S)
    (body : S -> prog W (ctl * S)) fuel :
  forall s w out w',
    for_loop fuel cond incr body s w = (out, w') ->
    out <> Stuck ->
    for_loop (Datatypes.S fuel) cond incr body s w = (out, w').
Proof.
  induction fuel as [| fuel IH]; intros s w out w' E Hout.
  - simpl in *. destruct (cond s); [| exact E].
    unfold stuck in E. injection E as <- _. contradiction.
  - change (for_loop (Datatypes.S (Datatypes.S fuel)) cond incr body s w)
      with ((if cond s
             then bind (body s) (fun r =>
                    match r with
                    | (Break, s') => ret s'
                    | (Continue, s') =>
                        for_loop (Datatypes.S fuel) cond incr body (incr s')
                    end)
             else ret s) w).
    simpl in E. destruct (cond s); [| exact E].
    unfold bind in *. destruct (body s w) as [[[c s'] | rc |] w1]; try exact E.
    destruct c; [| exact E]. now apply IH.
Qed.

Lemma for_loop_fuel_le {W S} (cond : S -> bool) (incr : S -> S)
    (body : S -> prog W (ctl * S)) fuel fuel' s w out w' :
  (fuel <= fuel')%nat ->
  for_loop fuel cond incr body s w = (out, w') ->
  out <> Stuck ->
  for_loop fuel' cond incr body s w = (out, w').
Proof.
  intros Hle E Hout. induction Hle as [| fuel' _ IH]; [exact E |].
  now apply for_loop_more_fuel.
Qed.

(** *** The loop over the labels (C1, C2) *)

(** C1, as stated, fails on a frame that passes the filters and ends
    before the name: the first load of the loop falls outside the frame
    and ends the program, so the loop stops neither on a terminator nor on
    the cap. *)
Lemma truncated_query_stops_elsewhere :
  accepted LittleEndian truncated_query /\
  ~ stops_at_terminator_or_cap 255 255 truncated_query
      (add_loads no_effects filter_loads).
Proof.
  split.
  - repeat split; try reflexivity. exists 0. split; reflexivity.
  - intros (st & w' & E & _). vm_compute in E. discriminate.
Qed.

(** The loads of the loop do not depend on the state in which it is
    entered. *)
Lemma label_loop_framed MAX_DNS_NAME skb fuel :
  0 <= MAX_DNS_NAME < 2 ^ 32 ->
  (Z.to_nat MAX_DNS_NAME <= fuel)%nat ->
  exists out new,
    forall w, label_loop MAX_DNS_NAME fuel skb w = (out, add_loads w new).
Proof.
  intros Hmax Hf.
  destruct (label_loop_spec MAX_DNS_NAME Hmax skb fuel no_effects Hf)
    as (out & new & E & _).
  assert (framed (label_loop MAX_DNS_NAME fuel skb)) as Hfr
    by (unfold label_loop, label_loop_from, label_body; repeat framed_step).
  exists out, new. intros w. rewrite (Hfr w), E.
  unfold app_effects, add_loads. simpl. now rewrite app_nil_r.
Qed.

(** When a load of the loop ends the program, it is the last thing that
    the loop did. *)
Lemma label_loop_from_cut MAX_DNS_NAME skb fuel :
  forall st w rc w',
    label_loop_from MAX_DNS_NAME fuel skb st w = (Return rc, w') ->
    exists k new',
      frame_byte skb (NAME_OFF + k) = None /\
      loads w' = loads w ++ new' ++ [(NAME_OFF + k, 1)].
Proof.
  induction fuel as [| fuel IH]; intros [i0 s0] w rc w';
    unfold label_loop_from in *; simpl.
  - destruct (i0 <? MAX_DNS_NAME); discriminate.
  - destruct (i0 <? MAX_DNS_NAME); [| discriminate].
    unfold label_body, bind, load_byte. simpl.
    destruct (s0 =? 0); simpl; [| apply IH].
    destruct (frame_byte skb (NAME_OFF + i0)) as [b |] eqn:Hb.
    + destruct (to_int b =? 0); simpl; [discriminate |].
      intros E. destruct (IH _ _ _ _ E) as (k & new' & Hk & Hl).
      exists k, ((NAME_OFF + i0, 1) :: new'). split; [exact Hk |].
      rewrite Hl. unfold log_load. simpl. now rewrite <- app_assoc.
    + intros [= <- <-]. exists i0, []. split; [exact Hb | reflexivity].
Qed.

(** A length byte in front of the cap that the frame does not hold ends
    the program in the loop, with the load of that byte. *)
Lemma label_loop_cut MAX_DNS_NAME skb fuel w k :
  0 <= MAX_DNS_NAME < 2 ^ 32 ->
  (Z.to_nat MAX_DNS_NAME <= fuel)%nat ->
  cut_label skb k -> k < MAX_DNS_NAME ->
  exists new,
    label_loop MAX_DNS_NAME fuel skb w = (Return 0, add_loads w new) /\
    last new = Some (NAME_OFF + k, 1).
Proof.
  intros Hmax Hf Hcut Hlt.
  destruct (label_loop_spec MAX_DNS_NAME Hmax skb fuel w Hf)
    as (out & new & E & Hnew & Hout).
  destruct out as [st | rc |]; [| | contradiction].
  - exfalso. destruct Hout as (Hr & Hz & Hc).
    destruct (Z_lt_ge_dec (i st) MAX_DNS_NAME) as [Hi | Hi].
    + specialize (Hz Hi).
      pose proof (zero_label_last _ _ _ Hz (proj1 Hcut)).
      pose proof (cut_label_last _ _ _ Hcut (proj1 Hz)).
      assert (i st = k) as Hk by lia. rewrite Hk in Hz.
      destruct Hz as [_ Hz], Hcut as [_ Hcut]. congruence.
    + destruct (Hc ltac:(lia)) as (k' & Hk' & Hle).
      pose proof (cut_label_last _ _ _ Hcut Hk'). lia.
  - destruct Hout as (-> & _).
    exists new. split; [exact E |].
    destruct (label_loop_from_cut _ _ _ _ _ _ _ E) as (k' & new' & Hnone & Hl).
    simpl in Hl. apply app_inv_head in Hl. subst new.
    rewrite Forall_app, Forall_singleton in Hnew.
    destruct Hnew as (_ & j & Ej & Hj & Hjs).
    injection Ej as Ej. assert (j = k') as -> by lia.
    pose proof (cut_label_last _ _ _ Hcut Hjs).
    pose proof (cut_label_last skb k' k (conj Hjs Hnone) (proj1 Hcut)).
    assert (k' = k) as -> by lia. apply last_snoc.
Qed.

(** C1 (amended): with [MAX_DNS_NAME] passes allowed the loop over the
    labels comes to an end on every frame, and it loads single bytes at
    offsets below [MAX_DNS_NAME] from the start of the name only. What
    it does is fixed by the length bytes of the frame, in three cases that
    exclude one another. When the first zero length byte sits at [k] in
    front of the cap, the loop leaves with [i = k]; when the labels reach
    the cap, it leaves with [i = MAX_DNS_NAME]; in both cases every length
    byte in front of [i] is in the frame and is not zero, and the captured
    length is [i]. When a length byte at [k] in front of the cap is outside
    the frame, the load of that byte is the last thing the loop does: it
    ends the program with return value 0, no length is captured, and the
    probe, on a frame that passed the filters, returns 0 without an
    event. The loop never makes more than [MAX_DNS_NAME] passes: the run
    with exactly that many allowed is the same run. *)
Theorem label_loop_bounded MAX_DNS_NAME skb fuel w :
  0 <= MAX_DNS_NAME < 2 ^ 32 ->
  (Z.to_nat MAX_DNS_NAME <= fuel)%nat ->
  exists out new,
    label_loop MAX_DNS_NAME fuel skb w = (out, add_loads w new) /\
    Forall (fun a => exists k, a = (NAME_OFF + k, 1) /\ 0 <= k < MAX_DNS_NAME) new /\
    match out with
    | Next st =>
        name_length MAX_DNS_NAME fuel skb w = (Next (i st), add_loads w new) /\
        0 <= i st <= MAX_DNS_NAME /\
        (forall j, label_start skb j -> j < i st ->
                   exists l, frame_byte skb (NAME_OFF + j) = Some l /\ l <> 0) /\
        (i st < MAX_DNS_NAME -> zero_label skb (i st)) /\
        (i st = MAX_DNS_NAME ->
         (exists k, label_start skb k /\ MAX_DNS_NAME <= k) /\
         forall k, zero_label skb k -> MAX_DNS_NAME <= k)
    | Return rc =>
        rc = 0 /\
        name_length MAX_DNS_NAME fuel skb w = (Return 0, add_loads w new) /\
        exists k, 0 <= k < MAX_DNS_NAME /\ cut_label skb k /\
                  last new = Some (NAME_OFF + k, 1)
    | Stuck => False
    end /\
    (forall k, zero_label skb k -> k < MAX_DNS_NAME ->
       exists st, out = Next st /\ i st = k) /\
    (forall k, label_start skb k -> MAX_DNS_NAME <= k ->
       exists st, out = Next st /\ i st = MAX_DNS_NAME) /\
    (forall k, cut_label skb k -> k < MAX_DNS_NAME ->
       out = Return 0 /\
       last new = Some (NAME_OFF + k, 1) /\
       forall target w0,
         accepted target skb ->
         bpf_prog1 MAX_DNS_NAME target fuel skb w0
         = (Return 0, add_loads w0 (filter_loads ++ new))) /\
    label_loop MAX_DNS_NAME (Z.to_nat MAX_DNS_NAME) skb w = (out, add_loads w new).
Proof.
  intros Hmax Hf.
  destruct (label_loop_framed MAX_DNS_NAME skb fuel Hmax Hf) as (out & new & Hall).
  destruct (label_loop_spec MAX_DNS_NAME Hmax skb fuel w Hf)
    as (out' & new' & E & Hnew & Hout).
  rewrite (Hall w) in E. injection E as <- E. apply app_inv_head in E. subst new'.
  exists out, new. split; [apply Hall |].
  split; [| split; [| split; [| split; [| split]]]].
  - eapply Forall_impl; [exact Hnew |].
    intros a (k & -> & Hk & _). exists k. auto.
  - destruct out as [st | rc |]; [| | exact Hout].
    + destruct Hout as (Hr & Hz & Hc).
      split; [| split; [exact Hr | split; [| split; [exact Hz |]]]].
      * rewrite name_length_loop by assumption. now rewrite (Hall w).
      * intros j Hj Hlt.
        destruct (Z_lt_ge_dec (i st) MAX_DNS_NAME) as [Hi | Hi].
        -- exact (zero_label_first skb (i st) j (Hz Hi) Hj Hlt).
        -- destruct (Hc ltac:(lia)) as (k & Hk & Hle).
           destruct (label_start_before skb j k Hj Hk ltac:(lia)) as (l & Hl & Hl0 & _).
           eauto.
      * intros Hi. split; [exact (Hc Hi) |].
        intros k Hk. destruct (Hc Hi) as (k' & Hk' & Hle).
        pose proof (zero_label_last _ _ _ Hk Hk'). lia.
    + destruct Hout as (-> & k & Hk & Hcut). split; [reflexivity |].
      destruct (label_loop_cut MAX_DNS_NAME skb fuel w k Hmax Hf Hcut ltac:(lia))
        as (new' & E & Hlast).
      rewrite (Hall w) in E. injection E as E. apply app_inv_head in E. subst new'.
      split; [| exists k; auto].
      rewrite name_length_loop by assumption. now rewrite (Hall w).
  - intros k Hk Hlt.
    destruct (label_loop_zero_label MAX_DNS_NAME Hmax skb fuel w k Hf Hk Hlt)
      as (st & w' & E' & Hi).
    rewrite (Hall w) in E'. injection E' as -> _. eauto.
  - intros k Hk Hle.
    destruct (label_loop_capped MAX_DNS_NAME Hmax skb fuel w k Hf Hk Hle)
      as (st & w' & E' & Hi).
    rewrite (Hall w) in E'. injection E' as -> _. eauto.
  - intros k Hcut Hlt.
    destruct (label_loop_cut MAX_DNS_NAME skb fuel w k Hmax Hf Hcut Hlt)
      as (new' & E & Hlast).
    rewrite (Hall w) in E. injection E as -> E. apply app_inv_head in E. subst new'.
    split; [reflexivity |]. split; [exact Hlast |].
    intros target w0 Hacc.
    rewrite bpf_prog1_unfold, (validate_accepted _ _ _ Hacc).
    rewrite name_length_loop by assumption. rewrite (Hall _).
    unfold add_loads. simpl. now rewrite <- app_assoc.
  - destruct (label_loop_spec MAX_DNS_NAME Hmax skb (Z.to_nat MAX_DNS_NAME) w
                ltac:(lia)) as (out0 & new0 & E0 & _ & Hout0).
    assert (out0 <> Stuck) as Hns by (intros ->; exact Hout0).
    pose proof (Hall w) as E. unfold label_loop, label_loop_from in *.
    rewrite (for_loop_fuel_le _ _ _ _ fuel _ _ _ _ Hf E0 Hns) in E.
    rewrite E0. exact E.
Qed.

(** C2: the loop with the [skip] counter and the direct walk that adds
    the length of a label to the index compute the same capped length of
    the name on every frame (and load the same bytes, and end the program
    on the same frames). *)
Theorem skip_counter_refines_jump MAX_DNS_NAME skb fuel fuel' w :
  0 <= MAX_DNS_NAME < 2 ^ 32 ->
  (Z.to_nat MAX_DNS_NAME <= fuel)%nat ->
  (Z.to_nat MAX_DNS_NAME <= fuel')%nat ->
  name_length MAX_DNS_NAME fuel skb w = name_length_jump MAX_DNS_NAME fuel' skb w.
Proof. intros Hmax Hf Hf'. now apply name_length_jump_eq. Qed.

(** *** The filters (C5) *)

(** The bit of the loaded flags that [flags.qr] names. [load_half] gives
    the flags in host order, so the QR bit of the wire is bit 15 of the
    value; the bit-field of the union is bit 7 on a little-endian target
    (the RA bit of the wire) and bit 8 on a big-endian one (the RD bit). *)
Lemma dnsflags_qr_bit target v :
  0 <= v < 2 ^ 16 ->
  dnsflags_qr target {| flags := v |}
  = Z.b2z (Z.testbit v match target with LittleEndian => 7 | BigEndian => 8 end).
Proof.
  intros Hv. unfold dnsflags_qr, bitfield, u16_byte_at. cbn [flags].
  change (0 =? 0) with true. cbv iota.
  change (2 ^ 16) with 65536 in Hv.
  rewrite Z.testbit_spec' by (destruct target; lia).
  destruct target; rewrite Z.land_ones by lia.
  - change 255 with (Z.ones 8). rewrite Z.land_ones by lia.
    rewrite Z.shiftr_div_pow2 by lia.
    change (2 ^ 8) with 256. change (2 ^ 7) with 128. change (2 ^ 1) with 2.
    Z.div_mod_to_equations. lia.
  - rewrite !Z.shiftr_div_pow2 by lia.
    change (2 ^ 8) with 256. change (2 ^ (8 - 7 - 1)) with 1. change (2 ^ 1) with 2.
    rewrite Z.div_1_r. reflexivity.
Qed.

(** A frame that fails a filter, as the probe evaluates it, leaves the
    probe with return value 0, no event, and the loads of the filters up
    to the failing one only. *)
Lemma rejected_no_event MAX_DNS_NAME target fuel skb w :
  ~ accepted target skb ->
  exists n, (n < 6)%nat /\
    bpf_prog1 MAX_DNS_NAME target fuel skb w
    = (Return 0, add_loads w (take (S n) filter_loads)).
Proof.
  intros Hrej. rewrite bpf_prog1_unfold.
  destruct (validate target skb w) as [out1 w1] eqn:Ev.
  destruct (validate_inv _ _ _ _ _ Ev) as [(_ & Hacc & _) | (-> & _ & n & Hn & ->)];
    [contradiction | eauto].
Qed.

(** C5, at the failing input: [refused_response] is a response (its QR
    bit is 1) with one question and no record; on either byte order the
    probe lets it through the test of [flags.qr] and emits an event for
    it. *)
Theorem response_frame_emitted :
  wire_qr refused_response = Some 1 /\
  forall target,
    run (bpf_prog1 8 target 8 refused_response) no_effects
    = Some (0, {| loads := filter_loads
                           ++ [(NAME_OFF, 1); (NAME_OFF + 2, 1); (NAME_OFF + 4, 1);
                               (NAME_OFF, 4); (NAME_OFF + 5, 2)];
                  events := [ {| name := bytes [1; 97; 1; 98; 0; 0; 0; 0];
                                 qtype := 1;
                                 pkt_type := 0 |} ] |}).
Proof. split; [reflexivity |]. intros []; vm_compute; reflexivity. Qed.

(** *** The event (C6, C7, C9, C10) *)

Lemma frame_byte_drop skb off n k bs b :
  take n (drop (Z.to_nat off) (skb_data skb)) = bs ->
  0 <= off ->
  bs !! k = Some b ->
  frame_byte skb (off + Z.of_nat k) = Some (byte_val b).
Proof.
  intros <- Hoff Hk. unfold frame_byte. z_ltb.
  apply lookup_take_Some in Hk as [Hk _]. rewrite lookup_drop in Hk.
  replace (Z.to_nat (off + Z.of_nat k)) with (Z.to_nat off + k)%nat by lia.
  now rewrite Hk.
Qed.

(** C6: a frame that passes the filters and whose question starts with
    the bytes 1,'a',1,'b',0 and the type 1 yields one event, with captured
    length 4, the four bytes 1,'a',1,'b' in front of a zero-filled name
    field, and query type 1. *)
Theorem query_a_b_event MAX_DNS_NAME target fuel skb w :
  4 <= MAX_DNS_NAME < 2 ^ 32 ->
  (Z.to_nat MAX_DNS_NAME <= fuel)%nat ->
  accepted target skb ->
  take 7 (drop (Z.to_nat NAME_OFF) (skb_data skb)) = bytes [1; 97; 1; 98; 0; 0; 1] ->
  (exists w1,
     name_length MAX_DNS_NAME fuel skb (add_loads w filter_loads) = (Next 4, w1)) /\
  exists ls,
    bpf_prog1 MAX_DNS_NAME target fuel skb w
    = (Next 0,
       {| loads := loads w ++ ls;
          events := events w ++
            [ {| name := bytes [1; 97; 1; 98]
                         ++ replicate (Z.to_nat MAX_DNS_NAME - 4) zero_byte;
                 qtype := 1;
                 pkt_type := skb_pkt_type skb |} ] |}).
Proof.
  intros Hmax Hf Hacc Hq.
  assert (forall k b, bytes [1; 97; 1; 98; 0; 0; 1] !! k = Some b ->
                      frame_byte skb (NAME_OFF + Z.of_nat k) = Some (byte_val b)) as Hb
    by (intros k b; now apply frame_byte_drop with (n := 7%nat)).
  pose proof (Hb 0%nat _ eq_refl) as H0. pose proof (Hb 1%nat _ eq_refl) as H1.
  pose proof (Hb 2%nat _ eq_refl) as H2. pose proof (Hb 3%nat _ eq_refl) as H3.
  pose proof (Hb 4%nat _ eq_refl) as H4. pose proof (Hb 5%nat _ eq_refl) as H5.
  pose proof (Hb 6%nat _ eq_refl) as H6.
  change (byte_val _) with 1 in H0, H2, H6. change (byte_val _) with 97 in H1.
  change (byte_val _) with 98 in H3. change (byte_val _) with 0 in H4, H5.
  change (NAME_OFF + Z.of_nat 0) with NAME_OFF in H0.
  change (NAME_OFF + Z.of_nat 1) with (NAME_OFF + 1) in H1.
  change (NAME_OFF + Z.of_nat 2) with (NAME_OFF + 2) in H2.
  change (NAME_OFF + Z.of_nat 3) with (NAME_OFF + 3) in H3.
  change (NAME_OFF + Z.of_nat 4) with (NAME_OFF + 4) in H4.
  change (NAME_OFF + Z.of_nat 5) with (NAME_OFF + 4 + 1) in H5.
  change (NAME_OFF + Z.of_nat 6) with (NAME_OFF + 4 + 1 + 1) in H6.
  assert (label_start skb 2) as L2
    by (apply (label_next skb 0 1); [constructor | assumption | lia]).
  assert (label_start skb 4) as L4 by (apply (label_next skb 2 1); [assumption .. | lia]).
  assert (frame_half skb (NAME_OFF + 4 + 1) = Some 1) as Hqt.
  { unfold frame_half. now rewrite H5, H6. }
  destruct (name_length_of MAX_DNS_NAME skb fuel 4 (add_loads w filter_loads))
    as (w1 & E); [lia | assumption | lia | intros _; now split | intros <-; eauto with lia |].
  split; [eauto |].
  rewrite bpf_prog1_unfold, (validate_accepted _ _ _ Hacc), E.
  rewrite (emit_spec _ _ _ 1) by (assumption || lia).
  destruct (name_length_spec MAX_DNS_NAME ltac:(lia) skb fuel (add_loads w filter_loads) Hf)
    as (out & new & E' & _). rewrite E in E'. injection E' as _ ->.
  eexists. unfold add_loads, query_event, captured_name. simpl loads. simpl events.
  rewrite <- !app_assoc. f_equal. f_equal. f_equal. f_equal. f_equal.
  change (Z.to_nat 4) with (Init.Nat.min 4 7).
  rewrite <- take_take, Hq. reflexivity.
Qed.

Lemma emits_inv MAX_DNS_NAME target fuel skb w ev :
  0 <= MAX_DNS_NAME < 2 ^ 32 ->
  (Z.to_nat MAX_DNS_NAME <= fuel)%nat ->
  emits MAX_DNS_NAME target fuel skb w ev ->
  exists len q,
    ev = query_event MAX_DNS_NAME skb len q /\
    accepted target skb /\
    0 <= len <= MAX_DNS_NAME /\
    frame_half skb (NAME_OFF + len + 1) = Some q /\
    forall w0, exists w1, name_length MAX_DNS_NAME fuel skb w0 = (Next len, w1).
Proof.
  intros Hmax Hf (out & ls & evs & E & Hin).
  destruct (bpf_prog1_verdict MAX_DNS_NAME target fuel skb w Hmax Hf)
    as (out' & ls' & evs' & E' & Hv).
  rewrite E in E'. injection E' as _ _ Hevs. apply app_inv_head in Hevs. subst evs'.
  destruct Hv as [| | | len q new Hacc _ Hr Hz Hc Hq]; try contradiction.
  destruct Hin as [<- | []]. exists len, q.
  split; [reflexivity |]. split; [assumption |]. split; [lia |].
  split; [assumption |].
  intros w0. apply name_length_of; (assumption || lia).
Qed.

Lemma captured_name_length MAX_DNS_NAME skb len q :
  0 <= len <= MAX_DNS_NAME ->
  frame_half skb (NAME_OFF + len + 1) = Some q ->
  length (captured_name MAX_DNS_NAME skb len) = Z.to_nat MAX_DNS_NAME /\
  forall k, (Z.to_nat len <= k < Z.to_nat MAX_DNS_NAME)%nat ->
            captured_name MAX_DNS_NAME skb len !! k = Some zero_byte.
Proof.
  intros Hr Hq.
  destruct (frame_half_Some _ _ _ Hq) as (hi & lo & _ & Hlo & _).
  apply frame_byte_Some in Hlo.
  assert (length (take (Z.to_nat len) (drop (Z.to_nat NAME_OFF) (skb_data skb)))
          = Z.to_nat len) as Hlen.
  { rewrite length_take, length_drop.
    assert (0 <= NAME_OFF) by (vm_compute; discriminate). lia. }
  unfold captured_name. split.
  - rewrite length_app, Hlen, length_replicate. lia.
  - intros k Hk. rewrite lookup_app_r by lia. rewrite Hlen.
    apply lookup_replicate_2. lia.
Qed.

(** C7, as stated, fails on a name that is longer than the cap: the
    query whose name has four labels of 63 bytes passes the filters, the
    terminator of its name is byte 256 of the question and the type of the
    question, behind it, is 16; with [MAX_DNS_NAME = 255] the captured
    length is 255, the byte at that offset is the last byte of the fourth
    label, and the event carries the query type 0, spelled by the
    terminator and the first byte of the type. *)
Lemma long_name_query_other_type :
  zero_label long_name_query 256 /\
  question_type long_name_query 16 /\
  (exists w1, name_length 255 255 long_name_query
                (add_loads no_effects filter_loads) = (Next 255, w1)) /\
  frame_byte long_name_query (NAME_OFF + 255) = Some 65 /\
  forall target,
    accepted target long_name_query /\
    exists ev,
      emits 255 target 255 long_name_query no_effects ev /\
      qtype ev = 0 /\
      ~ question_type long_name_query (qtype ev).
Proof.
  assert (zero_label long_name_query 256) as Hz.
  { split; [| reflexivity].
    apply (label_next long_name_query 192 63); [| reflexivity | lia].
    apply (label_next long_name_query 128 63); [| reflexivity | lia].
    apply (label_next long_name_query 64 63); [| reflexivity | lia].
    apply (label_next long_name_query 0 63); [constructor | reflexivity | lia]. }
  split; [exact Hz |]. split; [| split; [| split]].
  - exists 256. split; [exact Hz | reflexivity].
  - eexists. vm_compute. reflexivity.
  - reflexivity.
  - intros target. split.
    + repeat split; try reflexivity. exists 0. split; [reflexivity |].
      destruct target; reflexivity.
    + destruct (bpf_prog1 255 target 255 long_name_query no_effects)
        as [out [ls evs]] eqn:E.
      assert (exists ev, evs = [ev] /\ qtype ev = 0) as (ev & -> & Hq).
      { destruct target; vm_compute in E; injection E as _ _ <-; eauto. }
      exists ev. split; [| split; [exact Hq |]].
      * exists out, ls, [ev]. split; [exact E | now left].
      * rewrite Hq. intros (k & Hk & Hh).
        pose proof (zero_label_last _ _ _ Hk (proj1 Hz)).
        pose proof (zero_label_last _ _ _ Hz (proj1 Hk)).
        assert (k = 256) as -> by lia. vm_compute in Hh. discriminate.
Qed.

(** C7 (amended): the query type of every event that the probe emits is
    the big-endian 16-bit value of the two bytes of the frame at [len + 1]
    and [len + 2] bytes past the end of the DNS header, [len] being the
    captured length. Below the cap the byte at [len] is the terminator of
    the name, the first zero length byte; whenever the terminator sits at
    [len], the two bytes are those behind the name and its terminator, and
    the query type is the type of the question. At the cap the labels
    reach or pass offset [MAX_DNS_NAME], the two bytes are read at
    [MAX_DNS_NAME + 1] all the same, and a terminator, if there is one,
    sits at [len] or further on. *)
Theorem qtype_follows_name MAX_DNS_NAME target fuel skb w ev :
  0 <= MAX_DNS_NAME < 2 ^ 32 ->
  (Z.to_nat MAX_DNS_NAME <= fuel)%nat ->
  emits MAX_DNS_NAME target fuel skb w ev ->
  exists len hi lo,
    (exists w1, name_length MAX_DNS_NAME fuel skb (add_loads w filter_loads)
                = (Next len, w1)) /\
    0 <= len <= MAX_DNS_NAME /\
    frame_byte skb (DNS_OFF + sizeof_dnshdr + len + 1) = Some hi /\
    frame_byte skb (DNS_OFF + sizeof_dnshdr + len + 2) = Some lo /\
    qtype ev = hi * 2 ^ 8 + lo /\
    (len < MAX_DNS_NAME -> zero_label skb len) /\
    (zero_label skb len -> question_type skb (qtype ev)) /\
    (len = MAX_DNS_NAME -> exists k, label_start skb k /\ MAX_DNS_NAME <= k) /\
    (forall k, zero_label skb k -> len <= k).
Proof.
  intros Hmax Hf Hev.
  destruct (emits_inv _ _ _ _ _ _ Hmax Hf Hev) as (len & q & -> & _ & Hr & Hq & Hlen).
  destruct (name_length_spec MAX_DNS_NAME Hmax skb fuel (add_loads w filter_loads) Hf)
    as (out & new & E & _ & Hout).
  destruct (Hlen (add_loads w filter_loads)) as (w1 & E1).
  rewrite E1 in E. injection E as <- _. destruct Hout as (_ & Hz & Hc).
  destruct (frame_half_Some _ _ _ Hq) as (hi & lo & Hhi & Hlo & Hv & _).
  exists len, hi, lo.
  split; [eauto |]. split; [exact Hr |]. split; [exact Hhi |].
  split; [| split; [exact Hv | split; [exact Hz | split; [| split; [exact Hc |]]]]].
  - replace (DNS_OFF + sizeof_dnshdr + len + 2) with (NAME_OFF + len + 1 + 1)
      by (unfold NAME_OFF; lia).
    exact Hlo.
  - intros Hzl. exists len. split; [exact Hzl | exact Hq].
  - intros k Hk.
    destruct (Z_lt_ge_dec len MAX_DNS_NAME) as [Hlt | Hge].
    + exact (zero_label_last _ _ _ Hk (proj1 (Hz Hlt))).
    + destruct (Hc ltac:(lia)) as (k' & Hk' & Hle).
      pose proof (zero_label_last _ _ _ Hk Hk'). lia.
Qed.

(** C9, as stated, fails on the query for the root name whose frame ends
    with the terminator: it passes the filters and its captured length is
    0, but the load of the query type falls outside the frame and ends the
    program before the event is sent. *)
Lemma truncated_root_query_dropped :
  accepted LittleEndian truncated_root_query /\
  (exists w1, name_length 255 255 truncated_root_query
                (add_loads no_effects filter_loads) = (Next 0, w1)) /\
  ~ exists ev, emits 255 LittleEndian 255 truncated_root_query no_effects ev.
Proof.
  split; [| split].
  - repeat split; try reflexivity. exists 0. split; reflexivity.
  - eexists. vm_compute. reflexivity.
  - intros (ev & out & ls & evs & E & Hin).
    vm_compute in E. injection E as _ _ <-. destruct Hin.
Qed.

(** C9 (amended): on a frame that passes the filters and whose first
    name byte is the zero length byte, the captured length is 0 and the
    probe goes on to the query type without copying a name. When the
    frame holds the two bytes after the terminator, the probe still sends
    an event: a name field of zeros, the packet type of the frame and the
    query type read from those two bytes. When the frame ends before
    them, the load of the query type ends the program with return value 0
    and no event is sent. *)
Theorem empty_name_still_emitted MAX_DNS_NAME target fuel skb w :
  0 <= MAX_DNS_NAME < 2 ^ 32 ->
  (Z.to_nat MAX_DNS_NAME <= fuel)%nat ->
  accepted target skb ->
  frame_byte skb NAME_OFF = Some 0 ->
  let ls := filter_loads
            ++ (if 0 <? MAX_DNS_NAME then [(NAME_OFF, 1)] else [])
            ++ [(NAME_OFF + 1, 2)] in
  (exists w1,
     name_length MAX_DNS_NAME fuel skb (add_loads w filter_loads) = (Next 0, w1)) /\
  bpf_prog1 MAX_DNS_NAME target fuel skb w
  = match frame_half skb (NAME_OFF + 1) with
    | Some q =>
        (Next 0,
         {| loads := loads w ++ ls;
            events := events w ++
              [ {| name := replicate (Z.to_nat MAX_DNS_NAME) zero_byte;
                   qtype := q;
                   pkt_type := skb_pkt_type skb |} ] |})
    | None =>
        (Return 0, {| loads := loads w ++ ls; events := events w |})
    end.
Proof.
  intros Hmax Hf Hacc Hz ls.
  assert (name_length MAX_DNS_NAME fuel skb (add_loads w filter_loads)
          = (Next 0,
             add_loads w (filter_loads
                          ++ if 0 <? MAX_DNS_NAME then [(NAME_OFF, 1)] else [])))
    as E.
  { unfold name_length, label_loop, label_loop_from, bind.
    destruct (Z.ltb_spec 0 MAX_DNS_NAME) as [Hpos | Hzero].
    - destruct fuel as [| fuel]; [lia |]. simpl.
      destruct (Z.ltb_spec 0 MAX_DNS_NAME); [| lia].
      unfold label_body, bind, load_byte. simpl.
      change (NAME_OFF + 0) with NAME_OFF. rewrite Hz. simpl.
      destruct (Z.ltb_spec 0 MAX_DNS_NAME); [| lia].
      unfold ret, add_loads, log_load. simpl. now rewrite <- app_assoc.
    - assert (MAX_DNS_NAME = 0) as -> by lia.
      destruct fuel; simpl; unfold ret, add_loads; simpl; reflexivity. }
  split; [eauto |].
  rewrite bpf_prog1_unfold, (validate_accepted _ _ _ Hacc), E.
  destruct (frame_half skb (NAME_OFF + 1)) as [q |] eqn:Hq.
  - rewrite (emit_spec _ _ _ q) by (assumption || lia).
    unfold add_loads, query_event, captured_name, ls. simpl loads. simpl events.
    rewrite <- !app_assoc. change (Z.to_nat 0) with 0%nat.
    rewrite take_0, Nat.sub_0_r. reflexivity.
  - rewrite emit_cut by assumption.
    unfold add_loads, ls. simpl. rewrite <- !app_assoc. reflexivity.
Qed.

(** C10: on a given frame the probe adds the same events to any earlier
    state, so that two runs on the frame send the same event twice; and
    an event that it sends has a name field of [MAX_DNS_NAME] bytes whose
    bytes from the captured length on are zero. *)
Theorem event_from_frame_alone MAX_DNS_NAME target fuel skb :
  0 <= MAX_DNS_NAME < 2 ^ 32 ->
  (Z.to_nat MAX_DNS_NAME <= fuel)%nat ->
  exists evs,
    (forall w,
       events (snd (bpf_prog1 MAX_DNS_NAME target fuel skb w)) = events w ++ evs) /\
    (forall w,
       events (snd (bpf_prog1 MAX_DNS_NAME target fuel skb
                      (snd (bpf_prog1 MAX_DNS_NAME target fuel skb w))))
       = (events w ++ evs) ++ evs) /\
    forall ev, In ev evs ->
      exists len,
        (forall w, exists w1,
           name_length MAX_DNS_NAME fuel skb w = (Next len, w1)) /\
        length (name ev) = Z.to_nat MAX_DNS_NAME /\
        forall k, (Z.to_nat len <= k < Z.to_nat MAX_DNS_NAME)%nat ->
                  name ev !! k = Some zero_byte.
Proof.
  intros Hmax Hf.
  pose proof (framed_bpf_prog1 MAX_DNS_NAME target fuel skb) as Hfr.
  exists (events (snd (bpf_prog1 MAX_DNS_NAME target fuel skb no_effects))).
  split; [| split].
  - intros w. rewrite (Hfr w). reflexivity.
  - intros w. rewrite (Hfr (snd _)), (Hfr w). reflexivity.
  - intros ev Hin.
    assert (emits MAX_DNS_NAME target fuel skb no_effects ev) as Hev.
    { destruct (bpf_prog1 MAX_DNS_NAME target fuel skb no_effects) as [out [ls evs]] eqn:E.
      exists out, ls, evs. split; [exact E | exact Hin]. }
    destruct (emits_inv _ _ _ _ _ _ Hmax Hf Hev) as (len & q & -> & _ & Hr & Hq & Hlen).
    exists len. split; [exact Hlen |].
    apply (captured_name_length MAX_DNS_NAME skb len q Hr Hq).
Qed.

End DnsFacts.

(** ** The seccomp audit probe *)

Module AuditFacts.

Import CInt Audit.
Local Open Scope prog_scope.

(** The part of the probe behind the filter (lines 46-65). *)
Lemma build_and_emit TASK_COMM_LEN CONTAINER_SIZE WITH_FILTER ctx k s old rest :
  resolved_mntns_id k <> 0 ->
  (WITH_FILTER = true -> is_Some (filter k !! resolved_mntns_id k)) ->
  tmp_event s = old :: rest ->
  kprobe__audit_seccomp TASK_COMM_LEN CONTAINER_SIZE WITH_FILTER ctx k s
  = (Next 0,
     {| tmp_event := built_event TASK_COMM_LEN CONTAINER_SIZE ctx k :: rest;
        lookups := lookups s
                   ++ (if WITH_FILTER then [(FilterMap, resolved_mntns_id k)] else [])
                   ++ [(TmpEventMap, 0); (ContainersMap, resolved_mntns_id k)];
        events := events s ++ [built_event TASK_COMM_LEN CONTAINER_SIZE ctx k] |}).
Proof.
  intros Hns Hadm Hslot. unfold kprobe__audit_seccomp.
  rewrite (proj2 (Z.eqb_neq _ _) Hns).
  unfold bind, bpf_map_lookup_elem, lookup_tmp_event, log_lookup, store,
    bpf_perf_event_output, modify, get, ret, return_, bind, built_event.
  destruct WITH_FILTER; simpl.
  - destruct (Hadm eq_refl) as [v ->]. simpl. rewrite Hslot. simpl.
    destruct (containers k !! resolved_mntns_id k); simpl;
      rewrite <- !app_assoc; reflexivity.
  - rewrite Hslot. simpl.
    destruct (containers k !! resolved_mntns_id k); simpl;
      rewrite <- !app_assoc; reflexivity.
Qed.

(** C3: a firing that reaches the emission (a resolved namespace that the
    filter admits, and the scratch slot at hand) sends one event; its
    container field is the stored snapshot, byte for byte, when the table
    has the namespace, and all zeros when it has not; in both cases the
    other fields are those of the firing. *)
Theorem enrichment_hit_or_miss TASK_COMM_LEN CONTAINER_SIZE WITH_FILTER ctx k s old :
  resolved_mntns_id k <> 0 ->
  (WITH_FILTER = true -> is_Some (filter k !! resolved_mntns_id k)) ->
  tmp_event s !! 0%nat = Some old ->
  map_Forall (fun _ entry => length entry = CONTAINER_SIZE) (containers k) ->
  exists s' ev,
    kprobe__audit_seccomp TASK_COMM_LEN CONTAINER_SIZE WITH_FILTER ctx k s
    = (Next 0, s') /\
    events s' = events s ++ [ev] /\
    pid ev = to_u32 (current_pid_tgid k) /\
    mntns_id ev = resolved_mntns_id k /\
    syscall ev = to_u64 (parm1 ctx) /\
    code ev = to_int (parm3 ctx) /\
    comm ev = bpf_get_current_comm TASK_COMM_LEN (task_comm (current_task k)) /\
    (forall entry, containers k !! resolved_mntns_id k = Some entry ->
                   container ev = entry) /\
    (containers k !! resolved_mntns_id k = None ->
     container ev = replicate CONTAINER_SIZE zero_byte).
Proof.
  intros Hns Hadm Hslot Hsz.
  destruct (tmp_event s) as [| old' rest] eqn:Hs; [discriminate |].
  eexists _, (built_event TASK_COMM_LEN CONTAINER_SIZE ctx k).
  split; [now apply build_and_emit with (old := old') (rest := rest) |].
  repeat (split; [reflexivity |]). unfold built_event. simpl. split.
  - intros entry Hentry. rewrite Hentry.
    apply take_ge. specialize (Hsz _ _ Hentry). simpl in Hsz. lia.
  - intros ->. reflexivity.
Qed.

(** C4: when the namespace of the task resolves to 0 the probe returns 0
    at once: no lookup in any map, the scratch slot untouched, nothing
    sent. *)
Theorem unresolved_namespace_no_effect
    TASK_COMM_LEN CONTAINER_SIZE WITH_FILTER ctx k s :
  resolved_mntns_id k = 0 ->
  kprobe__audit_seccomp TASK_COMM_LEN CONTAINER_SIZE WITH_FILTER ctx k s
  = (Return 0, s).
Proof.
  intros Hns. unfold kprobe__audit_seccomp. rewrite Hns. reflexivity.
Qed.

(** C8: compiled with the filter, a resolved namespace that is not a key
    of [filter] makes the probe return 0 after that one lookup, with the
    scratch slot untouched and nothing sent, whatever the rest of the
    input; compiled without it, the probe does not look into [filter],
    does not depend on it, and sends an event for every resolved
    namespace once it has the scratch slot. *)
Theorem admission_filter TASK_COMM_LEN CONTAINER_SIZE ctx k s :
  resolved_mntns_id k <> 0 ->
  (filter k !! resolved_mntns_id k = None ->
   kprobe__audit_seccomp TASK_COMM_LEN CONTAINER_SIZE true ctx k s
   = (Return 0, add_lookups s [(FilterMap, resolved_mntns_id k)])) /\
  (exists out s' l,
     kprobe__audit_seccomp TASK_COMM_LEN CONTAINER_SIZE false ctx k s = (out, s') /\
     lookups s' = lookups s ++ l /\
     (forall key, ~ In (FilterMap, key) l) /\
     (forall f,
        kprobe__audit_seccomp TASK_COMM_LEN CONTAINER_SIZE false ctx (with_filter k f) s
        = (out, s')) /\
     (forall old, tmp_event s !! 0%nat = Some old ->
        out = Next 0 /\ exists ev, events s' = events s ++ [ev])).
Proof.
  intros Hns. split.
  - intros Hmiss. unfold kprobe__audit_seccomp.
    rewrite (proj2 (Z.eqb_neq _ _) Hns).
    unfold bind, bpf_map_lookup_elem, log_lookup, modify, ret, return_, bind.
    simpl. rewrite Hmiss. reflexivity.
  - destruct (tmp_event s) as [| old rest] eqn:Hs.
    + exists (Return 0), (add_lookups s [(TmpEventMap, 0)]), [(TmpEventMap, 0)].
      assert (forall k', resolved_mntns_id k' <> 0 ->
                kprobe__audit_seccomp TASK_COMM_LEN CONTAINER_SIZE false ctx k' s
                = (Return 0, add_lookups s [(TmpEventMap, 0)])) as E.
      { intros k' Hk'. unfold kprobe__audit_seccomp.
        rewrite (proj2 (Z.eqb_neq _ _) Hk').
        unfold bind, lookup_tmp_event, log_lookup, modify, get, ret, return_, bind.
        simpl. unfold add_lookups. rewrite Hs. reflexivity. }
      split; [now apply E |]. split; [reflexivity |]. split.
      * intros key [H | []]. discriminate.
      * split; [intros f; now apply E | discriminate].
    + pose (l := [(TmpEventMap, 0); (ContainersMap, resolved_mntns_id k)]).
      eexists _, _, l. split.
      * apply build_and_emit with (old := old) (rest := rest);
          [assumption | discriminate | assumption].
      * split; [reflexivity |]. split.
        -- intros key [H | [H | []]]; discriminate.
        -- split.
           ++ intros f.
              apply (build_and_emit TASK_COMM_LEN CONTAINER_SIZE false ctx
                       (with_filter k f) s old rest);
                [assumption | discriminate | assumption].
           ++ intros _ _. split; [reflexivity | simpl; eauto].
Qed.

End AuditFacts.

(** ** More on the DNS query probe *)

Module DnsMore.

Import CInt CIntFacts Dns DnsFacts.
Local Open Scope prog_scope.

(** X1: with at least [MAX_DNS_NAME] passes allowed, every run of the
    probe comes to its end with return value 0, adds at most one event, and
    is the run with exactly [MAX_DNS_NAME] passes allowed. *)
Theorem bpf_prog1_returns_zero MAX_DNS_NAME target fuel skb w :
  0 <= MAX_DNS_NAME < 2 ^ 32 ->
  (Z.to_nat MAX_DNS_NAME <= fuel)%nat ->
  (exists ls evs,
     run (bpf_prog1 MAX_DNS_NAME target fuel skb) w
     = Some (0, {| loads := loads w ++ ls; events := events w ++ evs |}) /\
     (length evs <= 1)%nat) /\
  bpf_prog1 MAX_DNS_NAME target fuel skb w
  = bpf_prog1 MAX_DNS_NAME target (Z.to_nat MAX_DNS_NAME) skb w.
Proof.
  intros Hmax Hf. split.
  - destruct (bpf_prog1_verdict MAX_DNS_NAME target fuel skb w Hmax Hf)
      as (out & ls & evs & E & Hv).
    exists ls, evs. unfold run. rewrite E.
    destruct Hv; (split; [reflexivity | simpl; lia]).
  - rewrite !bpf_prog1_unfold.
    destruct (validate target skb w) as [[[] | rc |] w1]; try reflexivity.
    assert (name_length MAX_DNS_NAME fuel skb w1
            = name_length MAX_DNS_NAME (Z.to_nat MAX_DNS_NAME) skb w1) as ->;
      [| reflexivity].
    destruct (label_loop_spec MAX_DNS_NAME Hmax skb (Z.to_nat MAX_DNS_NAME) w1
                ltac:(lia)) as (out & new & E & _ & Hout).
    assert (out <> Stuck) as Hns by (intros ->; exact Hout).
    unfold name_length, bind, label_loop, label_loop_from in *.
    rewrite (for_loop_fuel_le _ _ _ _ fuel _ _ _ _ Hf E Hns). now rewrite E.
Qed.

(** *** The filters *)

Lemma field_is_true field test :
  field_is field test = true -> exists v, field = Some v /\ test v = true.
Proof. destruct field as [v |]; [eauto | discriminate]. Qed.

(** The frames that pass the six tests are the accepted ones. *)
Lemma filter_tests_accepted target skb :
  Forall (eq true) (filter_tests target skb) <-> accepted target skb.
Proof.
  unfold filter_tests, accepted. rewrite !Forall_cons. split.
  - intros (H1 & H2 & H3 & H4 & H5 & H6 & _).
    symmetry in H1, H2, H3, H4, H5, H6.
    apply field_is_true in H1 as (v1 & E1 & T1), H2 as (v2 & E2 & T2),
      H3 as (v3 & E3 & T3), H4 as (v4 & E4 & T4), H5 as (v5 & E5 & T5),
      H6 as (v6 & E6 & T6).
    apply Z.eqb_eq in T1, T2, T3, T4, T5, T6. subst.
    destruct (frame_half_Some _ _ _ E3) as (hi & lo & _ & _ & _ & Hv).
    unfold to_u16 in T3. rewrite to_unsigned_id in T3 by lia.
    repeat split; try assumption. eauto.
  - intros (H1 & H2 & (v & H3 & Hqr) & H4 & H5 & H6).
    destruct (frame_half_Some _ _ _ H3) as (hi & lo & _ & _ & _ & Hv).
    rewrite H1, H2, H3, H4, H5, H6. simpl.
    unfold to_u16. rewrite to_unsigned_id by lia. rewrite Hqr.
    repeat split; constructor.
Qed.

(** Among tests that do not all pass there is a first one that fails. *)
Lemma first_false (l : list bool) :
  ~ Forall (eq true) l ->
  exists n, l !! n = Some false /\ forall m, (m < n)%nat -> l !! m = Some true.
Proof.
  induction l as [| b l IH]; intros Hl.
  - exfalso. apply Hl. constructor.
  - destruct b.
    + destruct IH as (n & Hn & Hm).
      * intros Hall. apply Hl. now constructor.
      * exists (S n). split; [exact Hn |].
        intros [| m] Hlt; [reflexivity | apply Hm; lia].
    + exists 0%nat. split; [reflexivity | intros m Hlt; lia].
Qed.

(** The probe leaves at the filter in front of it when the frame fails
    it, and goes on to the next one when the frame passes it. *)
Ltac fails_here Hn :=
  injection Hn as Hn; unfold field_is in Hn;
  match type of Hn with
  | match ?f with _ => _ end = false =>
      destruct f as [? |]; [simpl; rewrite Hn |]; simpl;
      rewrite <- ?app_assoc; reflexivity
  end.

Ltac passes_here Hn Hm n :=
  let H := fresh "H" in
  pose proof (Hm 0%nat ltac:(lia)) as H; injection H as H;
  apply field_is_true in H as (? & -> & ->); cbn [negb];
  specialize (fun m Hlt => Hm (S m) (proj1 (Nat.succ_lt_mono m n) Hlt));
  cbn [lookup list_lookup] in Hn, Hm.

Lemma validate_first_failing target skb w n :
  first_failing target skb n ->
  validate target skb w = (Return 0, add_loads w (take (S n) filter_loads)).
Proof.
  intros [Hn Hm]. unfold filter_tests in *.
  unfold validate, bind, load_half, load_byte, return_, add_loads, log_load.
  destruct n as [| n]; [fails_here Hn | passes_here Hn Hm n].
  destruct n as [| n]; [fails_here Hn | passes_here Hn Hm n].
  destruct n as [| n]; [fails_here Hn | passes_here Hn Hm n].
  destruct n as [| n]; [fails_here Hn | passes_here Hn Hm n].
  destruct n as [| n]; [fails_here Hn | passes_here Hn Hm n].
  destruct n as [| n]; [fails_here Hn | discriminate Hn].
Qed.

(** X2: the filters are tested one after the other, each right after the
    load of its field. A frame whose first failing filter is filter [n]
    (counted from 0, as the probe evaluates them) makes the probe return 0
    with no event after the loads of the filters 0 to [n] and no other
    load: those [n + 1] loads, all of them in front of the question.
    Every frame that is not accepted has such a first failing filter; a
    frame whose ethertype is not IPv4 costs the one load of the ethertype.
    A frame that passes goes through the six loads of the filters in
    order. *)
Theorem filters_short_circuit MAX_DNS_NAME target fuel skb w :
  (forall n,
     first_failing target skb n ->
     (n < 6)%nat /\
     ~ accepted target skb /\
     bpf_prog1 MAX_DNS_NAME target fuel skb w
     = (Return 0, add_loads w (take (S n) filter_loads)) /\
     length (take (S n) filter_loads) = S n /\
     Forall (fun a => fst a + snd a <= NAME_OFF) (take (S n) filter_loads)) /\
  (~ accepted target skb -> exists n, first_failing target skb n) /\
  (frame_half skb offsetof_ethhdr_h_proto <> Some ETH_P_IP ->
   bpf_prog1 MAX_DNS_NAME target fuel skb w
   = (Return 0, add_loads w [(offsetof_ethhdr_h_proto, 2)])) /\
  (accepted target skb ->
   validate target skb w = (Next tt, add_loads w filter_loads)).
Proof.
  split; [| split; [| split]].
  - intros n Hn.
    assert (n < 6)%nat as Hlt.
    { destruct Hn as [Hn _]. apply lookup_lt_Some in Hn. exact Hn. }
    split; [exact Hlt |]. split; [| split; [| split]].
    + intros Hacc. apply filter_tests_accepted in Hacc.
      destruct Hn as [Hn _]. rewrite Forall_lookup in Hacc.
      specialize (Hacc _ _ Hn). discriminate.
    + rewrite bpf_prog1_unfold. now rewrite (validate_first_failing _ _ _ _ Hn).
    + rewrite length_take. simpl. lia.
    + apply Forall_take. repeat constructor; vm_compute; discriminate.
  - intros Hrej. apply first_false. now rewrite filter_tests_accepted.
  - intros Hne. rewrite bpf_prog1_unfold.
    unfold validate, bind, load_half, return_, add_loads, log_load.
    destruct (frame_half skb offsetof_ethhdr_h_proto) as [p |]; [| reflexivity].
    simpl. destruct (Z.eqb_spec p ETH_P_IP) as [-> | Hp]; [congruence | reflexivity].
  - apply validate_accepted.
Qed.

(** X3: the bit that [flags.qr] names, in terms of the two flag bytes of
    the wire: the top bit of the second byte on a little-endian target, the
    lowest bit of the first byte on a big-endian one. The top bit of the
    first byte, the QR bit of the wire, plays no part in it. *)
Theorem dnsflags_qr_wire target hi lo :
  0 <= hi < 256 -> 0 <= lo < 256 ->
  dnsflags_qr target {| flags := to_u16 (Z.lor (Z.shiftl hi 8) lo) |}
  = match target with
    | LittleEndian => lo / 128
    | BigEndian => hi mod 2
    end /\
  (hi < 128 ->
   dnsflags_qr target {| flags := to_u16 (Z.lor (Z.shiftl (hi + 128) 8) lo) |}
   = dnsflags_qr target {| flags := to_u16 (Z.lor (Z.shiftl hi 8) lo) |}).
Proof.
  intros Hhi Hlo.
  assert (forall h, 0 <= h < 256 ->
            dnsflags_qr target {| flags := to_u16 (Z.lor (Z.shiftl h 8) lo) |}
            = match target with
              | LittleEndian => lo / 128
              | BigEndian => h mod 2
              end) as Hbit.
  { intros h Hh.
    assert (Z.lor (Z.shiftl h 8) lo = h * 256 + lo) as ->.
    { rewrite Z.shiftl_mul_pow2 by lia. change (2 ^ 8) with 256.
      rewrite <- Z.add_nocarry_lor; [reflexivity |].
      apply Z.bits_inj'. intros n Hn. rewrite Z.land_spec, Z.bits_0.
      destruct (Z_lt_ge_dec n 8).
      - change 256 with (2 ^ 8). rewrite Z.mul_pow2_bits_low by lia. reflexivity.
      - replace (Z.testbit lo n) with false; [apply andb_false_r |].
        symmetry. destruct (Z.eq_dec lo 0) as [-> | ]; [apply Z.bits_0 |].
        apply Z.bits_above_log2; [lia |].
        assert (Z.log2 lo < 8) by (apply Z.log2_lt_pow2; lia). lia. }
    unfold to_u16. rewrite to_unsigned_id by (change (2 ^ 16) with 65536; lia).
    rewrite dnsflags_qr_bit by (change (2 ^ 16) with 65536; lia).
    rewrite Z.testbit_spec' by (destruct target; lia).
    destruct target.
    - change (2 ^ 7) with 128. Z.div_mod_to_equations. lia.
    - change (2 ^ 8) with 256. Z.div_mod_to_equations. lia. }
  split; [now apply Hbit |].
  intros Hlt. rewrite !Hbit by lia.
  destruct target; [reflexivity |].
  Z.div_mod_to_equations. lia.
Qed.


(** *** The event *)

Lemma frame_byte_question skb k :
  0 <= k ->
  frame_byte skb (NAME_OFF + k) = byte_val <$> question skb !! Z.to_nat k.
Proof.
  intros Hk. unfold frame_byte, question.
  assert (0 <= NAME_OFF) by (vm_compute; discriminate). z_ltb.
  rewrite lookup_drop.
  replace (Z.to_nat (NAME_OFF + k)) with (Z.to_nat NAME_OFF + Z.to_nat k)%nat by lia.
  reflexivity.
Qed.

(** X4: in every event that the probe emits, the first [len] bytes of the
    name are the bytes of the frame behind the DNS header, byte for byte
    ([len] the captured length): the copy of line 110 did not fail; the
    packet type is that of the frame, the query type fits 16 bits, and the
    frame holds at least the [len + 3] bytes behind the DNS header that the
    probe reads. *)
Theorem event_copies_frame MAX_DNS_NAME target fuel skb w ev :
  0 <= MAX_DNS_NAME < 2 ^ 32 ->
  (Z.to_nat MAX_DNS_NAME <= fuel)%nat ->
  emits MAX_DNS_NAME target fuel skb w ev ->
  exists len,
    (forall w0, exists w1,
       name_length MAX_DNS_NAME fuel skb w0 = (Next len, w1)) /\
    0 <= len <= MAX_DNS_NAME /\
    NAME_OFF + len + 3 <= Z.of_nat (length (skb_data skb)) /\
    (forall k, (k < Z.to_nat len)%nat ->
       is_Some (name ev !! k) /\
       name ev !! k = skb_data skb !! (Z.to_nat NAME_OFF + k)%nat) /\
    pkt_type ev = skb_pkt_type skb /\
    0 <= qtype ev < 2 ^ 16.
Proof.
  intros Hmax Hf Hev.
  destruct (emits_inv _ _ _ _ _ _ Hmax Hf Hev) as (len & q & -> & _ & Hr & Hq & Hlen).
  destruct (frame_half_Some _ _ _ Hq) as (hi & lo & _ & Hlo & _ & Hqr).
  apply frame_byte_Some in Hlo.
  exists len. split; [exact Hlen |]. split; [exact Hr |]. split; [lia |].
  split; [| split; [reflexivity | exact Hqr]].
  intros k Hk. simpl. unfold captured_name.
  assert (0 <= NAME_OFF) by (vm_compute; discriminate).
  assert (k < length (take (Z.to_nat len) (drop (Z.to_nat NAME_OFF) (skb_data skb))))%nat
    as Hlt by (rewrite length_take, length_drop; lia).
  rewrite lookup_app_l by exact Hlt.
  split; [now apply lookup_lt_is_Some_2 |].
  rewrite lookup_take_lt by lia. apply lookup_drop.
Qed.

(** *** Names on the wire *)

Lemma encode_name_app a b : encode_name (a ++ b) = encode_name a ++ encode_name b.
Proof.
  induction a as [| l a IH]; simpl; [reflexivity |].
  now rewrite IH, <- app_assoc.
Qed.

(** The length bytes of an encoded name sit where the walk over the labels
    looks for them. *)
Lemma label_start_encode skb done :
  forall todo tail,
    Forall (fun l => (0 < length l < 256)%nat) done ->
    question skb = encode_name (done ++ todo) ++ tail ->
    label_start skb (Z.of_nat (length (encode_name done))).
Proof.
  induction done as [| l done IH] using rev_ind; intros todo tail Hok Hq.
  - constructor.
  - apply Forall_app in Hok as [Hok Hl]. apply Forall_inv in Hl.
    rewrite <- app_assoc in Hq. simpl in Hq.
    specialize (IH (l :: todo) tail Hok Hq).
    rewrite encode_name_app. simpl. rewrite app_nil_r, length_app. simpl.
    replace (Z.of_nat (length (encode_name done) + S (length l)))
      with (Z.of_nat (length (encode_name done)) + Z.of_nat (length l) + 1) by lia.
    apply label_next; [exact IH | | lia].
    rewrite frame_byte_question by lia. rewrite Nat2Z.id, Hq.
    rewrite encode_name_app, <- app_assoc. rewrite lookup_app_r by lia.
    rewrite Nat.sub_diag. simpl. f_equal. apply byte_val_of. lia.
Qed.

(** X5: a frame that passes the filters and whose question is the
    encoding of a list of non-empty labels (each shorter than 256 bytes),
    its terminator, and two bytes of query type yields one event; the
    captured length is the length [L] of the encoding, capped at
    [MAX_DNS_NAME]; the name field is that much of the encoding followed by
    zeros, and, when [L <= MAX_DNS_NAME], the query type is the one of the
    frame. *)
Theorem encoded_name_captured MAX_DNS_NAME target fuel skb w labels qh ql rest :
  0 <= MAX_DNS_NAME < 2 ^ 32 ->
  (Z.to_nat MAX_DNS_NAME <= fuel)%nat ->
  accepted target skb ->
  Forall (fun l => (0 < length l < 256)%nat) labels ->
  question skb = encode_name labels ++ zero_byte :: qh :: ql :: rest ->
  let L := Z.of_nat (length (encode_name labels)) in
  let len := Z.min L MAX_DNS_NAME in
  (exists w1,
     name_length MAX_DNS_NAME fuel skb (add_loads w filter_loads) = (Next len, w1)) /\
  exists ls ev,
    bpf_prog1 MAX_DNS_NAME target fuel skb w
    = (Next 0, {| loads := loads w ++ ls; events := events w ++ [ev] |}) /\
    name ev = take (Z.to_nat len) (encode_name labels)
              ++ replicate (Z.to_nat MAX_DNS_NAME - Z.to_nat len) zero_byte /\
    pkt_type ev = skb_pkt_type skb /\
    (L <= MAX_DNS_NAME -> qtype ev = byte_val qh * 2 ^ 8 + byte_val ql).
Proof.
  intros Hmax Hf Hacc Hok Hq L len.
  assert (label_start skb L) as HL.
  { apply (label_start_encode skb labels [] (zero_byte :: qh :: ql :: rest) Hok).
    now rewrite app_nil_r. }
  assert (forall k b, (encode_name labels ++ zero_byte :: qh :: ql :: rest) !! k = Some b ->
            frame_byte skb (NAME_OFF + Z.of_nat k) = Some (byte_val b)) as Hbyte.
  { intros k b Hk. rewrite frame_byte_question by lia.
    now rewrite Nat2Z.id, Hq, Hk. }
  assert (zero_label skb L) as Hz.
  { split; [exact HL |]. apply (Hbyte (length (encode_name labels)) zero_byte).
    rewrite lookup_app_r by lia. now rewrite Nat.sub_diag. }
  assert (0 <= len <= L) as Hlen by (unfold len, L; lia).
  assert (exists q, frame_half skb (NAME_OFF + len + 1) = Some q /\
                    (L <= MAX_DNS_NAME -> q = byte_val qh * 2 ^ 8 + byte_val ql))
    as (q & Hqt & Hqv).
  { assert (length (question skb) = length (encode_name labels) + 3 + length rest)%nat
      as Hlq by (rewrite Hq, length_app; simpl; lia).
    assert (forall k, (k < length (encode_name labels) + 3)%nat ->
              exists b, question skb !! k = Some b) as Hin.
    { intros k Hk. apply lookup_lt_is_Some_2. lia. }
    destruct (Hin (Z.to_nat (len + 1)) ltac:(lia)) as (b1 & Hb1).
    destruct (Hin (Z.to_nat (len + 1 + 1)) ltac:(lia)) as (b2 & Hb2).
    unfold frame_half.
    replace (NAME_OFF + len + 1) with (NAME_OFF + (len + 1)) by lia.
    replace (NAME_OFF + (len + 1) + 1) with (NAME_OFF + (len + 1 + 1)) by lia.
    rewrite !frame_byte_question by lia. rewrite Hb1, Hb2. simpl.
    eexists. split; [reflexivity |].
    intros Hle. assert (len = L) as E by (unfold len; lia).
    rewrite E in Hb1, Hb2. unfold L in Hb1, Hb2.
    rewrite Hq in Hb1, Hb2. rewrite lookup_app_r in Hb1, Hb2 by lia.
    replace (Z.to_nat (Z.of_nat (length (encode_name labels)) + 1)
             - length (encode_name labels))%nat with 1%nat in Hb1 by lia.
    replace (Z.to_nat (Z.of_nat (length (encode_name labels)) + 1 + 1)
             - length (encode_name labels))%nat with 2%nat in Hb2 by lia.
    simpl in Hb1, Hb2. injection Hb1 as <-. injection Hb2 as <-.
    pose proof (byte_val_range qh). pose proof (byte_val_range ql).
    rewrite Z.shiftl_mul_pow2 by lia.
    rewrite <- Z.add_nocarry_lor; [reflexivity |].
    apply Z.bits_inj'. intros n Hn. rewrite Z.land_spec, Z.bits_0.
    destruct (Z_lt_ge_dec n 8).
    - rewrite Z.mul_pow2_bits_low by lia. reflexivity.
    - replace (Z.testbit (byte_val ql) n) with false; [apply andb_false_r |].
      symmetry. destruct (Z.eq_dec (byte_val ql) 0) as [-> | ]; [apply Z.bits_0 |].
      apply Z.bits_above_log2; [lia |].
      assert (Z.log2 (byte_val ql) < 8) by (apply Z.log2_lt_pow2; lia). lia. }
  destruct (name_length_of MAX_DNS_NAME skb fuel len (add_loads w filter_loads))
    as (w1 & E); [assumption | assumption | lia | | |].
  { intros Hlt. replace len with L by (unfold len; lia). exact Hz. }
  { intros Heq. exists L. split; [exact HL | lia]. }
  split; [eauto |].
  rewrite bpf_prog1_unfold, (validate_accepted _ _ _ Hacc), E.
  rewrite (emit_spec _ _ _ q) by (assumption || lia).
  destruct (name_length_spec MAX_DNS_NAME Hmax skb fuel (add_loads w filter_loads) Hf)
    as (out & new & E' & _). rewrite E in E'. injection E' as _ ->.
  eexists _, (query_event MAX_DNS_NAME skb len q).
  split; [| split; [| split; [reflexivity | exact Hqv]]].
  - unfold add_loads. simpl loads. simpl events. rewrite <- !app_assoc. reflexivity.
  - simpl. unfold captured_name. f_equal.
    change (drop (Z.to_nat NAME_OFF) (skb_data skb)) with (question skb).
    rewrite Hq. apply take_app_le. lia.
Qed.


(** *** What the probe does not look at *)

(** Two bodies that agree on the states a loop can reach give the same
    loop. *)
Lemma for_loop_ext {W S} (Inv : S -> Prop) (cond : S -> bool) (incr : S -> S)
    (body1 body2 : S -> prog W (ctl * S)) fuel :
  (forall s w, Inv s -> body1 s w = body2 s w) ->
  (forall s w c s' w', Inv s -> body1 s w = (Next (c, s'), w') -> Inv (incr s')) ->
  forall s w, Inv s ->
    for_loop fuel cond incr body1 s w = for_loop fuel cond incr body2 s w.
Proof.
  intros Hbody Hinv. induction fuel as [| fuel IH]; intros s w Hs; simpl.
  - reflexivity.
  - destruct (cond s); [| reflexivity].
    unfold bind. rewrite <- (Hbody s w Hs).
    destruct (body1 s w) as [[[c s'] | rc |] w1] eqn:E; try reflexivity.
    destruct c; [| reflexivity].
    apply IH. exact (Hinv s w Continue s' w1 Hs E).
Qed.

Section SameView.

Variables (h1 h2 rest : list byte) (pt : Z).
Hypothesis length_h1 : length h1 = Z.to_nat NAME_OFF.
Hypothesis length_h2 : length h2 = Z.to_nat NAME_OFF.
Hypothesis same_filter_bytes : Forall (fun k => h1 !! k = h2 !! k) filter_offsets.

Let skb1 : sk_buff := {| skb_data := h1 ++ rest; skb_pkt_type := pt |}.
Let skb2 : sk_buff := {| skb_data := h2 ++ rest; skb_pkt_type := pt |}.

Lemma frame_byte_behind off :
  NAME_OFF <= off -> frame_byte skb1 off = frame_byte skb2 off.
Proof.
  intros Hoff. unfold frame_byte, skb1, skb2. simpl.
  assert (0 <= NAME_OFF) by (vm_compute; discriminate).
  rewrite !lookup_app_r by lia. now rewrite length_h1, length_h2.
Qed.

Lemma frame_byte_filter k :
  In k filter_offsets ->
  frame_byte skb1 (Z.of_nat k) = frame_byte skb2 (Z.of_nat k).
Proof.
  intros Hk. unfold frame_byte, skb1, skb2. simpl.
  rewrite Nat2Z.id.
  assert (k < Z.to_nat NAME_OFF)%nat as Hlt
    by (simpl in Hk; change (Z.to_nat NAME_OFF) with 54%nat;
        repeat (destruct Hk as [<- | Hk]; [lia |]); destruct Hk).
  rewrite !lookup_app_l by lia.
  rewrite Forall_forall in same_filter_bytes.
  now rewrite (same_filter_bytes k (proj2 (list_elem_of_In _ _) Hk)).
Qed.

Lemma frame_half_filter k :
  In k filter_offsets -> In (S k) filter_offsets ->
  frame_half skb1 (Z.of_nat k) = frame_half skb2 (Z.of_nat k).
Proof.
  intros Hk Hk'. unfold frame_half.
  replace (Z.of_nat k + 1) with (Z.of_nat (S k)) by lia.
  now rewrite (frame_byte_filter k Hk), (frame_byte_filter (S k) Hk').
Qed.

Lemma validate_same target w : validate target skb1 w = validate target skb2 w.
Proof.
  unfold validate, bind, load_half, load_byte.
  change offsetof_ethhdr_h_proto with (Z.of_nat 12).
  change (ETH_HLEN + offsetof_iphdr_protocol) with (Z.of_nat 23).
  change (DNS_OFF + offsetof_dnshdr_flags) with (Z.of_nat 44).
  change (DNS_OFF + offsetof_dnshdr_qdcount) with (Z.of_nat 46).
  change (DNS_OFF + offsetof_dnshdr_ancount) with (Z.of_nat 48).
  change (DNS_OFF + offsetof_dnshdr_nscount) with (Z.of_nat 50).
  rewrite (frame_half_filter 12), (frame_byte_filter 23), (frame_half_filter 44),
    (frame_half_filter 46), (frame_half_filter 48), (frame_half_filter 50)
    by (simpl; tauto).
  reflexivity.
Qed.

Lemma label_loop_same MAX_DNS_NAME fuel w :
  label_loop MAX_DNS_NAME fuel skb1 w = label_loop MAX_DNS_NAME fuel skb2 w.
Proof.
  unfold label_loop, label_loop_from.
  apply for_loop_ext with (Inv := fun st => 0 <= i st).
  - intros st w0 Hst. unfold label_body, bind, load_byte.
    rewrite frame_byte_behind by lia. reflexivity.
  - intros st w0 c st' w' _ _. simpl. unfold to_u32, to_unsigned.
    apply Z.mod_pos_bound. reflexivity.
  - simpl. lia.
Qed.

Lemma emit_same MAX_DNS_NAME len w :
  0 <= len -> emit MAX_DNS_NAME skb1 len w = emit MAX_DNS_NAME skb2 len w.
Proof.
  intros Hlen. unfold emit, bind, bpf_skb_load_bytes, load_half, frame_half.
  rewrite !frame_byte_behind by lia.
  assert (length (skb_data skb1) = length (skb_data skb2)) as ->
    by (unfold skb1, skb2; simpl; rewrite !length_app; lia).
  assert (drop (Z.to_nat NAME_OFF) (skb_data skb1)
          = drop (Z.to_nat NAME_OFF) (skb_data skb2)) as ->
    by (unfold skb1, skb2; simpl;
        rewrite <- length_h1 at 1; rewrite <- length_h2;
        now rewrite !drop_app_length).
  reflexivity.
Qed.

End SameView.

(** X7: of the 54 bytes in front of the question the probe looks at
    those of the ethertype (12, 13), of the IP protocol (23) and of the DNS
    flags and the three counts (44 to 51) only: two frames that agree on
    these, on everything from the question on and on the packet type make
    the probe do the same, whatever their addresses, ports, DNS id and
    count of additional records. *)
Theorem header_bytes_ignored MAX_DNS_NAME target fuel h1 h2 rest pt w :
  length h1 = Z.to_nat NAME_OFF ->
  length h2 = Z.to_nat NAME_OFF ->
  Forall (fun k => h1 !! k = h2 !! k) filter_offsets ->
  bpf_prog1 MAX_DNS_NAME target fuel {| skb_data := h1 ++ rest; skb_pkt_type := pt |} w
  = bpf_prog1 MAX_DNS_NAME target fuel {| skb_data := h2 ++ rest; skb_pkt_type := pt |} w.
Proof.
  intros H1 H2 Hsame. unfold bpf_prog1, name_length, bind.
  rewrite (validate_same h1 h2 rest pt H1 H2 Hsame).
  destruct (validate target _ w) as [[[] | rc |] w1]; try reflexivity.
  rewrite (label_loop_same h1 h2 rest pt H1 H2).
  destruct (label_loop MAX_DNS_NAME fuel _ w1) as [[st | rc |] w2]; try reflexivity.
  unfold ret. apply (emit_same h1 h2 rest pt H1 H2).
  unfold to_u32, to_unsigned. apply Z.mod_pos_bound. reflexivity.
Qed.


(** *** When the probe emits *)

Lemma frame_half_inside skb off :
  0 <= off -> off + 2 <= Z.of_nat (length (skb_data skb)) ->
  exists q, frame_half skb off = Some q.
Proof.
  intros H0 Hlen. unfold frame_half, frame_byte. z_ltb.
  destruct (lookup_lt_is_Some_2 (skb_data skb) (Z.to_nat off) ltac:(lia)) as [b1 ->].
  destruct (lookup_lt_is_Some_2 (skb_data skb) (Z.to_nat (off + 1)) ltac:(lia))
    as [b2 ->].
  simpl. eauto.
Qed.

(** X6: the probe emits an event exactly when the frame passes the
    filters, the walk over the labels leaves the loop with a captured
    length [len], and the frame holds the [len + 3] bytes behind the DNS
    header up to the two bytes read as the query type. *)
Theorem dns_emission_iff MAX_DNS_NAME target fuel skb w :
  0 <= MAX_DNS_NAME < 2 ^ 32 ->
  (Z.to_nat MAX_DNS_NAME <= fuel)%nat ->
  (exists ev, emits MAX_DNS_NAME target fuel skb w ev) <->
  accepted target skb /\
  exists len w1,
    name_length MAX_DNS_NAME fuel skb (add_loads w filter_loads) = (Next len, w1) /\
    NAME_OFF + len + 3 <= Z.of_nat (length (skb_data skb)).
Proof.
  intros Hmax Hf. split.
  - intros (ev & Hev).
    destruct (emits_inv _ _ _ _ _ _ Hmax Hf Hev) as (len & q & _ & Hacc & _ & Hq & Hlen).
    split; [exact Hacc |].
    destruct (Hlen (add_loads w filter_loads)) as (w1 & E).
    exists len, w1. split; [exact E |].
    destruct (frame_half_Some _ _ _ Hq) as (hi & lo & _ & Hlo & _).
    apply frame_byte_Some in Hlo. lia.
  - intros (Hacc & len & w1 & E & Hlen).
    destruct (name_length_spec MAX_DNS_NAME Hmax skb fuel (add_loads w filter_loads) Hf)
      as (out & new & E' & _ & Hout).
    rewrite E in E'. injection E' as <- ->. destruct Hout as (Hr & _).
    assert (0 <= NAME_OFF) by (vm_compute; discriminate).
    destruct (frame_half_inside skb (NAME_OFF + len + 1)) as (q & Hq); [lia | lia |].
    exists (query_event MAX_DNS_NAME skb len q). unfold emits.
    rewrite bpf_prog1_unfold, (validate_accepted _ _ _ Hacc), E.
    rewrite (emit_spec _ _ _ q) by (assumption || lia).
    eexists _, _, [query_event MAX_DNS_NAME skb len q].
    split; [| left; reflexivity].
    unfold add_loads. simpl loads. simpl events. rewrite <- !app_assoc. reflexivity.
Qed.

(** X13: every byte that the loop over the labels loads is a length
    byte: the first byte of the name or the byte behind a whole label;
    nothing inside a label is read as a length. *)
Theorem loop_loads_length_bytes MAX_DNS_NAME fuel skb w :
  0 <= MAX_DNS_NAME < 2 ^ 32 ->
  (Z.to_nat MAX_DNS_NAME <= fuel)%nat ->
  exists out new,
    label_loop MAX_DNS_NAME fuel skb w = (out, add_loads w new) /\
    Forall (fun a => exists k, a = (NAME_OFF + k, 1) /\ label_start skb k) new.
Proof.
  intros Hmax Hf.
  destruct (label_loop_spec MAX_DNS_NAME Hmax skb fuel w Hf)
    as (out & new & E & Hnew & _).
  exists out, new. split; [exact E |].
  eapply Forall_impl; [exact Hnew |].
  intros a (k & -> & _ & Hk). eauto.
Qed.

End DnsMore.

(** ** More on the seccomp audit probe *)

Module AuditMore.

Import CInt CIntFacts Audit AuditFacts.
Local Open Scope prog_scope.

Section Paths.

Variables (TASK_COMM_LEN CONTAINER_SIZE : nat) (WITH_FILTER : bool).
Variables (ctx : pt_regs) (k : kernel) (s : state).

Let probe := kprobe__audit_seccomp TASK_COMM_LEN CONTAINER_SIZE WITH_FILTER ctx k.

(** Lines 40-44: the namespace is not a key of [filter]. *)
Lemma filter_miss :
  resolved_mntns_id k <> 0 ->
  ~ admitted_by WITH_FILTER k ->
  probe s = (Return 0, add_lookups s (filter_lookup WITH_FILTER k)).
Proof.
  intros Hns Hadm. unfold probe, kprobe__audit_seccomp, admitted_by in *.
  rewrite (proj2 (Z.eqb_neq _ _) Hns).
  destruct WITH_FILTER; [| exfalso; apply Hadm; discriminate].
  unfold bind, bpf_map_lookup_elem, log_lookup, modify, ret, return_, bind.
  simpl. destruct (filter k !! resolved_mntns_id k) as [v |] eqn:E;
    [exfalso; apply Hadm; eauto | reflexivity].
Qed.

(** Lines 46-49: the lookup in [tmp_event] gives NULL. *)
Lemma slot_missing :
  resolved_mntns_id k <> 0 ->
  admitted_by WITH_FILTER k ->
  tmp_event s = [] ->
  probe s = (Return 0,
             add_lookups s (filter_lookup WITH_FILTER k ++ [(TmpEventMap, 0)])).
Proof.
  intros Hns Hadm Hs. unfold probe, kprobe__audit_seccomp, admitted_by in *.
  rewrite (proj2 (Z.eqb_neq _ _) Hns).
  unfold bind, bpf_map_lookup_elem, lookup_tmp_event, log_lookup, modify, get,
    ret, return_, bind, add_lookups.
  destruct WITH_FILTER; simpl.
  - destruct (Hadm eq_refl) as [v ->]. simpl. rewrite Hs. simpl.
    now rewrite <- app_assoc.
  - rewrite Hs. reflexivity.
Qed.

(** The four ways through the probe. *)
Lemma probe_paths :
  (resolved_mntns_id k = 0 /\ probe s = (Return 0, s)) \/
  (resolved_mntns_id k <> 0 /\ ~ admitted_by WITH_FILTER k /\
   probe s = (Return 0, add_lookups s (filter_lookup WITH_FILTER k))) \/
  (resolved_mntns_id k <> 0 /\ admitted_by WITH_FILTER k /\ tmp_event s = [] /\
   probe s = (Return 0,
              add_lookups s (filter_lookup WITH_FILTER k ++ [(TmpEventMap, 0)]))) \/
  (resolved_mntns_id k <> 0 /\ admitted_by WITH_FILTER k /\
   exists old rest,
     tmp_event s = old :: rest /\
     probe s
     = (Next 0,
        {| tmp_event := built_event TASK_COMM_LEN CONTAINER_SIZE ctx k :: rest;
           lookups := lookups s ++ all_lookups WITH_FILTER k;
           events := events s ++ [built_event TASK_COMM_LEN CONTAINER_SIZE ctx k] |})).
Proof.
  destruct (Z.eq_dec (resolved_mntns_id k) 0) as [Hz | Hns].
  - left. split; [exact Hz |]. now apply unresolved_namespace_no_effect.
  - right.
    assert (admitted_by WITH_FILTER k \/ ~ admitted_by WITH_FILTER k) as [Hadm | Hadm].
    { unfold admitted_by. destruct WITH_FILTER; [| left; discriminate].
      destruct (filter k !! resolved_mntns_id k) as [v |];
        [left; eauto | right; intros H; destruct (H eq_refl); discriminate]. }
    + right. destruct (tmp_event s) as [| old rest] eqn:Hs.
      * left. repeat split; try assumption. now apply slot_missing.
      * right. repeat split; try assumption. exists old, rest.
        split; [reflexivity |].
        unfold probe, all_lookups, filter_lookup.
        now apply build_and_emit with (old := old).
    + left. repeat split; try assumption. now apply filter_miss.
Qed.

End Paths.

(** X8: every firing of the probe returns 0; it adds at most one event;
    its map lookups are a beginning of: [filter] (when compiled in), slot 0
    of [tmp_event], [containers]; and of the scratch array it changes slot
    0 only. *)
Theorem probe_returns_zero TASK_COMM_LEN CONTAINER_SIZE WITH_FILTER ctx k s :
  exists s' l evs,
    run (kprobe__audit_seccomp TASK_COMM_LEN CONTAINER_SIZE WITH_FILTER ctx k) s
    = Some (0, s') /\
    lookups s' = lookups s ++ l /\
    l `prefix_of` all_lookups WITH_FILTER k /\
    events s' = events s ++ evs /\ (length evs <= 1)%nat /\
    length (tmp_event s') = length (tmp_event s) /\
    forall n, n <> 0%nat -> tmp_event s' !! n = tmp_event s !! n.
Proof.
  unfold run.
  destruct (probe_paths TASK_COMM_LEN CONTAINER_SIZE WITH_FILTER ctx k s)
    as [(_ & ->) | [(_ & _ & ->) | [(_ & _ & _ & ->) | (_ & _ & old & rest & Hs & ->)]]].
  - exists s, [], []. rewrite !app_nil_r.
    split; [reflexivity |]. split; [reflexivity |]. split; [apply prefix_nil |].
    split; [reflexivity |]. split; [simpl; lia |]. split; reflexivity.
  - eexists _, (filter_lookup WITH_FILTER k), []. simpl. rewrite app_nil_r.
    split; [reflexivity |]. split; [reflexivity |].
    split; [unfold all_lookups; now apply prefix_app_r |].
    split; [reflexivity |]. split; [lia |]. split; reflexivity.
  - eexists _, (filter_lookup WITH_FILTER k ++ [(TmpEventMap, 0)]), [].
    simpl. rewrite app_nil_r.
    split; [reflexivity |]. split; [reflexivity |]. split.
    { unfold all_lookups. apply prefix_app.
      now exists [(ContainersMap, resolved_mntns_id k)]. }
    split; [reflexivity |]. split; [lia |]. split; reflexivity.
  - eexists _, (all_lookups WITH_FILTER k),
      [built_event TASK_COMM_LEN CONTAINER_SIZE ctx k].
    split; [reflexivity |]. split; [reflexivity |]. split; [reflexivity |].
    split; [reflexivity |]. split; [simpl; lia |]. simpl. rewrite Hs.
    split; [reflexivity |].
    intros [| n] Hn; [contradiction | reflexivity].
Qed.

(** An event is emitted on the fourth way only. *)
Lemma emits_iff_reached TASK_COMM_LEN CONTAINER_SIZE WITH_FILTER ctx k s :
  (exists ev, emits TASK_COMM_LEN CONTAINER_SIZE WITH_FILTER ctx k s ev) <->
  resolved_mntns_id k <> 0 /\ admitted_by WITH_FILTER k /\ tmp_event s <> [].
Proof.
  unfold emits.
  assert (forall (l : list event) ev, l <> l ++ [ev]) as Hneq.
  { intros l ev E. apply (f_equal length) in E. rewrite length_app in E.
    simpl in E. lia. }
  destruct (probe_paths TASK_COMM_LEN CONTAINER_SIZE WITH_FILTER ctx k s)
    as [(Hz & E) | [(Hns & Hadm & E) | [(Hns & Hadm & Hs & E)
                                       | (Hns & Hadm & old & rest & Hs & E)]]];
    rewrite E; simpl; split.
  - intros (ev & H). now apply Hneq in H.
  - intros (Hns & _). contradiction.
  - intros (ev & H). now apply Hneq in H.
  - intros (_ & Hadm' & _). contradiction.
  - intros (ev & H). now apply Hneq in H.
  - intros (_ & _ & H). contradiction.
  - intros _. rewrite Hs. repeat split; [assumption | assumption | discriminate].
  - intros _. eauto.
Qed.

(** X9: the probe emits an event exactly when the namespace of the task
    resolves to a nonzero id, the filter (when compiled in) has that id as
    a key, and the lookup of the scratch slot does not give NULL. *)
Theorem emission_iff TASK_COMM_LEN CONTAINER_SIZE WITH_FILTER ctx k s :
  (exists ev, emits TASK_COMM_LEN CONTAINER_SIZE WITH_FILTER ctx k s ev) <->
  resolved_mntns_id k <> 0 /\ admitted_by WITH_FILTER k /\ tmp_event s <> [].
Proof. apply emits_iff_reached. Qed.

(** X10: the event of a firing is built afresh: it does not depend on
    what an earlier firing left in the scratch slot (nor on earlier lookups
    and events), and it is what the firing leaves in slot 0 in its turn. *)
Theorem no_stale_data TASK_COMM_LEN CONTAINER_SIZE WITH_FILTER ctx k s1 s2 ev1 ev2 :
  emits TASK_COMM_LEN CONTAINER_SIZE WITH_FILTER ctx k s1 ev1 ->
  emits TASK_COMM_LEN CONTAINER_SIZE WITH_FILTER ctx k s2 ev2 ->
  ev1 = ev2 /\
  tmp_event (snd (kprobe__audit_seccomp TASK_COMM_LEN CONTAINER_SIZE WITH_FILTER
                    ctx k s1)) !! 0%nat = Some ev1.
Proof.
  intros H1 H2.
  assert (forall s ev, emits TASK_COMM_LEN CONTAINER_SIZE WITH_FILTER ctx k s ev ->
            ev = built_event TASK_COMM_LEN CONTAINER_SIZE ctx k /\
            tmp_event (snd (kprobe__audit_seccomp TASK_COMM_LEN CONTAINER_SIZE
                              WITH_FILTER ctx k s)) !! 0%nat = Some ev) as Hbuilt.
  { intros s ev Hev.
    destruct (proj1 (emits_iff_reached TASK_COMM_LEN CONTAINER_SIZE WITH_FILTER ctx k s)
                (ex_intro _ ev Hev)) as (Hns & Hadm & Hs).
    destruct (tmp_event s) as [| old rest] eqn:Es; [contradiction |].
    unfold emits in Hev.
    rewrite (build_and_emit _ _ _ _ _ _ old rest Hns Hadm Es) in *. simpl in *.
    apply app_inv_head in Hev. injection Hev as <-. split; reflexivity. }
  destruct (Hbuilt s1 ev1 H1) as (-> & Hslot), (Hbuilt s2 ev2 H2) as (-> & _).
  split; [reflexivity | exact Hslot].
Qed.


Lemma length_bpf_get_current_comm size :
  forall name, length (bpf_get_current_comm size name) = size.
Proof.
  induction size as [| size IH]; intros name; [reflexivity |].
  destruct size as [| size]; [reflexivity |].
  change (bpf_get_current_comm (S (S size)) name)
    with (match name with
          | b :: name' =>
              if byte_val b =? 0 then replicate (S (S size)) zero_byte
              else b :: bpf_get_current_comm (S size) name'
          | [] => replicate (S (S size)) zero_byte
          end).
  destruct name as [| b name]; [apply length_replicate |].
  destruct (byte_val b =? 0); [apply length_replicate |].
  cbn [length]. f_equal. apply IH.
Qed.

Lemma to_int_range x : - 2 ^ 31 <= to_int x < 2 ^ 31.
Proof.
  unfold to_int, to_u32, to_unsigned.
  pose proof (Z.mod_pos_bound x (2 ^ 32) ltac:(lia)).
  destruct (Z.ltb_spec (x mod 2 ^ 32) (2 ^ 31)); lia.
Qed.

(** X11: every event that the probe emits carries the namespace id that
    was resolved, which is not 0 and, when the probe is compiled with the
    filter, is a key of [filter]; its code fits [int], its syscall number
    [unsigned long] and its pid 32 bits; its command name has
    [sizeof(event->comm)] bytes and its container field at most
    [sizeof(event->container)]. *)
Theorem event_well_formed TASK_COMM_LEN CONTAINER_SIZE WITH_FILTER ctx k s ev :
  emits TASK_COMM_LEN CONTAINER_SIZE WITH_FILTER ctx k s ev ->
  mntns_id ev = resolved_mntns_id k /\
  mntns_id ev <> 0 /\
  (WITH_FILTER = true -> mntns_id ev ∈ dom (filter k)) /\
  - 2 ^ 31 <= code ev < 2 ^ 31 /\
  0 <= syscall ev < 2 ^ 64 /\
  0 <= pid ev < 2 ^ 32 /\
  length (comm ev) = TASK_COMM_LEN /\
  (length (container ev) <= CONTAINER_SIZE)%nat.
Proof.
  intros Hev.
  destruct (proj1 (emits_iff_reached TASK_COMM_LEN CONTAINER_SIZE WITH_FILTER ctx k s)
              (ex_intro _ ev Hev)) as (Hns & Hadm & Hs).
  destruct (tmp_event s) as [| old rest] eqn:Es; [contradiction |].
  unfold emits in Hev.
  rewrite (build_and_emit _ _ _ _ _ _ old rest Hns Hadm Es) in Hev. simpl in Hev.
  apply app_inv_head in Hev. injection Hev as <-. simpl.
  split; [reflexivity |]. split; [exact Hns |]. split.
  { intros Hwf. apply elem_of_dom. exact (Hadm Hwf). }
  split; [apply to_int_range |].
  split; [apply Z.mod_pos_bound; lia |].
  split; [apply Z.mod_pos_bound; lia |].
  split; [apply length_bpf_get_current_comm |].
  destruct (containers k !! resolved_mntns_id k) as [entry |].
  - rewrite length_take. lia.
  - rewrite length_replicate. lia.
Qed.

(** X12: of [filter] the probe uses the keys only: two filters with the
    same keys make the probe do the same, whatever values they hold. *)
Theorem filter_values_unused TASK_COMM_LEN CONTAINER_SIZE WITH_FILTER ctx k f s :
  dom (filter k) = dom f ->
  kprobe__audit_seccomp TASK_COMM_LEN CONTAINER_SIZE WITH_FILTER ctx k s
  = kprobe__audit_seccomp TASK_COMM_LEN CONTAINER_SIZE WITH_FILTER ctx
      (with_filter k f) s.
Proof.
  intros Hdom. unfold kprobe__audit_seccomp.
  change (resolved_mntns_id (with_filter k f)) with (resolved_mntns_id k).
  destruct (resolved_mntns_id k =? 0); [reflexivity |].
  destruct WITH_FILTER; [| reflexivity].
  unfold bpf_map_lookup_elem. simpl filter.
  destruct (filter k !! resolved_mntns_id k) as [v |] eqn:E1,
           (f !! resolved_mntns_id k) as [v' |] eqn:E2; try reflexivity.
  - apply not_elem_of_dom in E2. rewrite <- Hdom in E2.
    exfalso. apply E2. apply elem_of_dom. eauto.
  - apply not_elem_of_dom in E1. rewrite Hdom in E1.
    exfalso. apply E1. apply elem_of_dom. eauto.
Qed.

End AuditMore.

(** ** Instances *)

Lemma label_loop_bounded_witness :
  (exists out new,
     Dns.label_loop 255 255 Dns.query_a_b Dns.no_effects
     = (out, Dns.add_loads Dns.no_effects new) /\
     (forall k, Dns.zero_label Dns.query_a_b k -> k < 255 ->
        exists st, out = Next st /\ Dns.i st = k)) /\
  (exists new,
     Dns.label_loop 255 255 Dns.truncated_query Dns.no_effects
     = (Return 0, Dns.add_loads Dns.no_effects new) /\
     last new = Some (Dns.NAME_OFF + 0, 1)).
Proof.
  split.
  - destruct (DnsFacts.label_loop_bounded 255 Dns.query_a_b 255 Dns.no_effects)
      as (out & new & E & _ & _ & Hz & _); [lia | simpl; lia |].
    exists out, new. split; [exact E | exact Hz].
  - destruct (DnsFacts.label_loop_bounded 255 Dns.truncated_query 255 Dns.no_effects)
      as (out & new & E & _ & _ & _ & _ & Hcut & _); [lia | simpl; lia |].
    destruct (Hcut 0) as (Hout & Hlast & _);
      [split; [constructor | reflexivity] | lia |].
    exists new. rewrite <- Hout. split; [exact E | exact Hlast].
Defined.

Lemma skip_counter_refines_jump_witness :
  Dns.name_length 255 255 Dns.query_a_b Dns.no_effects
  = Dns.name_length_jump 255 300 Dns.query_a_b Dns.no_effects.
Proof. apply DnsFacts.skip_counter_refines_jump; [lia | simpl; lia | simpl; lia]. Defined.

Lemma query_a_b_event_witness :
  (exists w1,
     Dns.name_length 255 255 Dns.query_a_b
       (Dns.add_loads Dns.no_effects Dns.filter_loads) = (Next 4, w1)) /\
  exists ls,
    Dns.bpf_prog1 255 Dns.LittleEndian 255 Dns.query_a_b Dns.no_effects
    = (Next 0,
       {| Dns.loads := Dns.loads Dns.no_effects ++ ls;
          Dns.events := Dns.events Dns.no_effects ++
            [ {| Dns.name := Dns.bytes [1; 97; 1; 98]
                             ++ replicate (Z.to_nat 255 - 4) zero_byte;
                 Dns.qtype := 1;
                 Dns.pkt_type := Dns.skb_pkt_type Dns.query_a_b |} ] |}).
Proof.
  apply DnsFacts.query_a_b_event.
  - lia.
  - simpl; lia.
  - repeat split; try reflexivity. exists 0. split; reflexivity.
  - reflexivity.
Defined.

Lemma qtype_follows_name_witness :
  exists len hi lo,
    (exists w1,
       Dns.name_length 8 8 Dns.query_a_b
         (Dns.add_loads Dns.no_effects Dns.filter_loads) = (Next len, w1)) /\
    0 <= len <= 8 /\
    Dns.frame_byte Dns.query_a_b (Dns.DNS_OFF + Dns.sizeof_dnshdr + len + 1) = Some hi /\
    Dns.frame_byte Dns.query_a_b (Dns.DNS_OFF + Dns.sizeof_dnshdr + len + 2) = Some lo /\
    1 = hi * 2 ^ 8 + lo /\
    (len < 8 -> Dns.zero_label Dns.query_a_b len) /\
    (Dns.zero_label Dns.query_a_b len -> Dns.question_type Dns.query_a_b 1) /\
    (len = 8 -> exists k, Dns.label_start Dns.query_a_b k /\ 8 <= k) /\
    (forall k, Dns.zero_label Dns.query_a_b k -> len <= k).
Proof.
  apply (DnsFacts.qtype_follows_name 8 Dns.LittleEndian 8 Dns.query_a_b Dns.no_effects
           {| Dns.name := Dns.bytes [1; 97; 1; 98; 0; 0; 0; 0];
              Dns.qtype := 1; Dns.pkt_type := 0 |}).
  - lia.
  - simpl; lia.
  - eexists _, _, _. split; [vm_compute; reflexivity | left; reflexivity].
Defined.

Lemma empty_name_still_emitted_witness :
  ((exists w1,
      Dns.name_length 255 255 Dns.root_query
        (Dns.add_loads Dns.no_effects Dns.filter_loads) = (Next 0, w1)) /\
   Dns.bpf_prog1 255 Dns.LittleEndian 255 Dns.root_query Dns.no_effects
   = (Next 0,
      {| Dns.loads := Dns.loads Dns.no_effects
                      ++ Dns.filter_loads
                      ++ [(Dns.NAME_OFF, 1)] ++ [(Dns.NAME_OFF + 1, 2)];
         Dns.events := Dns.events Dns.no_effects ++
           [ {| Dns.name := replicate (Z.to_nat 255) zero_byte;
                Dns.qtype := 2;
                Dns.pkt_type := Dns.skb_pkt_type Dns.root_query |} ] |})) /\
  ((exists w1,
      Dns.name_length 255 255 Dns.truncated_root_query
        (Dns.add_loads Dns.no_effects Dns.filter_loads) = (Next 0, w1)) /\
   Dns.bpf_prog1 255 Dns.LittleEndian 255 Dns.truncated_root_query Dns.no_effects
   = (Return 0,
      {| Dns.loads := Dns.loads Dns.no_effects
                      ++ Dns.filter_loads
                      ++ [(Dns.NAME_OFF, 1)] ++ [(Dns.NAME_OFF + 1, 2)];
         Dns.events := Dns.events Dns.no_effects |})).
Proof.
  split.
  - apply (DnsFacts.empty_name_still_emitted 255 Dns.LittleEndian 255 Dns.root_query
             Dns.no_effects).
    + lia.
    + simpl; lia.
    + repeat split; try reflexivity. exists 0. split; reflexivity.
    + reflexivity.
  - apply (DnsFacts.empty_name_still_emitted 255 Dns.LittleEndian 255
             Dns.truncated_root_query Dns.no_effects).
    + lia.
    + simpl; lia.
    + repeat split; try reflexivity. exists 0. split; reflexivity.
    + reflexivity.
Defined.

Lemma event_from_frame_alone_witness :
  exists evs,
    (forall w,
       Dns.events (snd (Dns.bpf_prog1 255 Dns.LittleEndian 255 Dns.query_a_b w))
       = Dns.events w ++ evs) /\
    (forall w,
       Dns.events (snd (Dns.bpf_prog1 255 Dns.LittleEndian 255 Dns.query_a_b
                          (snd (Dns.bpf_prog1 255 Dns.LittleEndian 255 Dns.query_a_b w))))
       = (Dns.events w ++ evs) ++ evs) /\
    forall ev, In ev evs ->
      exists len,
        (forall w, exists w1,
           Dns.name_length 255 255 Dns.query_a_b w = (Next len, w1)) /\
        length (Dns.name ev) = Z.to_nat 255 /\
        forall k, (Z.to_nat len <= k < Z.to_nat 255)%nat ->
                  Dns.name ev !! k = Some zero_byte.
Proof.
  apply (DnsFacts.event_from_frame_alone 255 Dns.LittleEndian 255 Dns.query_a_b);
    [lia | simpl; lia].
Defined.

Lemma enrichment_hit_or_miss_witness :
  exists s' ev,
    Audit.kprobe__audit_seccomp 8 4 true Audit.sample_ctx
      (Audit.sample_kernel 4026532000) Audit.sample_state = (Next 0, s') /\
    Audit.events s' = Audit.events Audit.sample_state ++ [ev] /\
    Audit.container ev = map byte_of [7; 7; 7; 7].
Proof.
  destruct (AuditFacts.enrichment_hit_or_miss 8 4 true Audit.sample_ctx
              (Audit.sample_kernel 4026532000) Audit.sample_state Audit.stale_event)
    as (s' & ev & E & Hev & _ & _ & _ & _ & _ & Hhit & _).
  - vm_compute. discriminate.
  - intros _. vm_compute. eauto.
  - reflexivity.
  - apply map_Forall_singleton. reflexivity.
  - exists s', ev. split; [exact E |]. split; [exact Hev |].
    apply Hhit. reflexivity.
Defined.

Lemma unresolved_namespace_no_effect_witness :
  Audit.kprobe__audit_seccomp 8 4 true Audit.sample_ctx
    (Audit.sample_kernel 0) Audit.sample_state
  = (Return 0, Audit.sample_state).
Proof. apply AuditFacts.unresolved_namespace_no_effect. reflexivity. Defined.

Lemma admission_filter_witness :
  Audit.kprobe__audit_seccomp 8 4 true Audit.sample_ctx
    (Audit.sample_kernel 4026531999) Audit.sample_state
  = (Return 0, Audit.add_lookups Audit.sample_state [(Audit.FilterMap, 4026531999)]).
Proof.
  apply (AuditFacts.admission_filter 8 4 Audit.sample_ctx (Audit.sample_kernel 4026531999)
           Audit.sample_state).
  - vm_compute. discriminate.
  - reflexivity.
Defined.

Lemma bpf_prog1_returns_zero_witness :
  (exists ls evs,
     run (Dns.bpf_prog1 255 Dns.LittleEndian 300 Dns.query_a_b) Dns.no_effects
     = Some (0, {| Dns.loads := Dns.loads Dns.no_effects ++ ls;
                   Dns.events := Dns.events Dns.no_effects ++ evs |}) /\
     (length evs <= 1)%nat) /\
  Dns.bpf_prog1 255 Dns.LittleEndian 300 Dns.query_a_b Dns.no_effects
  = Dns.bpf_prog1 255 Dns.LittleEndian (Z.to_nat 255) Dns.query_a_b Dns.no_effects.
Proof. apply DnsMore.bpf_prog1_returns_zero; [lia | simpl; lia]. Defined.

Lemma dnsflags_qr_wire_witness :
  Dns.dnsflags_qr Dns.LittleEndian
    {| Dns.flags := CInt.to_u16 (Z.lor (Z.shiftl 1 8) 128) |} = 128 / 128.
Proof. apply (DnsMore.dnsflags_qr_wire Dns.LittleEndian 1 128); lia. Defined.

Lemma filters_short_circuit_witness :
  Dns.bpf_prog1 255 Dns.LittleEndian 255 Dns.arp_frame Dns.no_effects
  = (Return 0, Dns.add_loads Dns.no_effects [(Dns.offsetof_ethhdr_h_proto, 2)]) /\
  Dns.bpf_prog1 255 Dns.LittleEndian 255 Dns.tcp_frame Dns.no_effects
  = (Return 0, Dns.add_loads Dns.no_effects (take 2 Dns.filter_loads)) /\
  Dns.bpf_prog1 255 Dns.LittleEndian 255 Dns.two_questions Dns.no_effects
  = (Return 0, Dns.add_loads Dns.no_effects (take 4 Dns.filter_loads)).
Proof.
  split; [| split].
  - apply (DnsMore.filters_short_circuit 255 Dns.LittleEndian 255 Dns.arp_frame
             Dns.no_effects).
    vm_compute. discriminate.
  - apply (proj1 (DnsMore.filters_short_circuit 255 Dns.LittleEndian 255 Dns.tcp_frame
                    Dns.no_effects) 1%nat).
    split; [reflexivity |].
    intros [| m] Hm; [reflexivity | lia].
  - apply (proj1 (DnsMore.filters_short_circuit 255 Dns.LittleEndian 255
                    Dns.two_questions Dns.no_effects) 3%nat).
    split; [reflexivity |].
    intros [| [| [| m]]] Hm; [reflexivity | reflexivity | reflexivity | lia].
Defined.

Lemma event_copies_frame_witness :
  exists len,
    (forall w0, exists w1,
       Dns.name_length 8 8 Dns.query_a_b w0 = (Next len, w1)) /\
    0 <= len <= 8 /\
    Dns.NAME_OFF + len + 3 <= Z.of_nat (length (Dns.skb_data Dns.query_a_b)).
Proof.
  destruct (DnsMore.event_copies_frame 8 Dns.LittleEndian 8 Dns.query_a_b
              Dns.no_effects
              {| Dns.name := Dns.bytes [1; 97; 1; 98; 0; 0; 0; 0];
                 Dns.qtype := 1; Dns.pkt_type := 0 |})
    as (len & H1 & H2 & H3 & _).
  - lia.
  - simpl; lia.
  - eexists _, _, _. split; [vm_compute; reflexivity | left; reflexivity].
  - exists len. split; [exact H1 |]. split; [exact H2 | exact H3].
Defined.

Lemma encoded_name_captured_witness :
  exists w1,
    Dns.name_length 255 255 Dns.query_example_com
      (Dns.add_loads Dns.no_effects Dns.filter_loads)
    = (Next (Z.min (Z.of_nat (length (Dns.encode_name Dns.example_com))) 255), w1).
Proof.
  apply (DnsMore.encoded_name_captured 255 Dns.LittleEndian 255
           Dns.query_example_com Dns.no_effects Dns.example_com
           (byte_of 0) (byte_of 28) (Dns.bytes [0; 1])).
  - lia.
  - simpl; lia.
  - repeat split; try reflexivity. exists 256. split; reflexivity.
  - repeat constructor; simpl; lia.
  - reflexivity.
Defined.

Lemma header_bytes_ignored_witness :
  Dns.bpf_prog1 255 Dns.LittleEndian 255
    {| Dns.skb_data := Dns.bytes (Dns.eth_ip_udp ++ Dns.dns_header 1 0)
                       ++ Dns.bytes [1; 97; 0; 0; 1; 0; 1];
       Dns.skb_pkt_type := 0 |} Dns.no_effects
  = Dns.bpf_prog1 255 Dns.LittleEndian 255
      {| Dns.skb_data :=
           Dns.masked_header (Dns.bytes (Dns.eth_ip_udp ++ Dns.dns_header 1 0))
           ++ Dns.bytes [1; 97; 0; 0; 1; 0; 1];
         Dns.skb_pkt_type := 0 |} Dns.no_effects.
Proof.
  apply DnsMore.header_bytes_ignored.
  - reflexivity.
  - reflexivity.
  - repeat constructor.
Defined.

Lemma dns_emission_iff_witness :
  (exists ev, Dns.emits 8 Dns.LittleEndian 8 Dns.query_a_b Dns.no_effects ev) <->
  Dns.accepted Dns.LittleEndian Dns.query_a_b /\
  exists len w1,
    Dns.name_length 8 8 Dns.query_a_b (Dns.add_loads Dns.no_effects Dns.filter_loads)
    = (Next len, w1) /\
    Dns.NAME_OFF + len + 3 <= Z.of_nat (length (Dns.skb_data Dns.query_a_b)).
Proof. apply DnsMore.dns_emission_iff; [lia | simpl; lia]. Defined.

Lemma loop_loads_length_bytes_witness :
  exists out new,
    Dns.label_loop 255 255 Dns.query_a_b Dns.no_effects
    = (out, Dns.add_loads Dns.no_effects new) /\
    Forall (fun a => exists k, a = (Dns.NAME_OFF + k, 1)
                               /\ Dns.label_start Dns.query_a_b k) new.
Proof. apply DnsMore.loop_loads_length_bytes; [lia | simpl; lia]. Defined.

Lemma no_stale_data_witness :
  Audit.built_event 8 4 Audit.sample_ctx (Audit.sample_kernel 4026532000)
  = Audit.built_event 8 4 Audit.sample_ctx (Audit.sample_kernel 4026532000) /\
  Audit.tmp_event
    (snd (Audit.kprobe__audit_seccomp 8 4 true Audit.sample_ctx
            (Audit.sample_kernel 4026532000) Audit.sample_state)) !! 0%nat
  = Some (Audit.built_event 8 4 Audit.sample_ctx (Audit.sample_kernel 4026532000)).
Proof.
  apply (AuditMore.no_stale_data 8 4 true Audit.sample_ctx
           (Audit.sample_kernel 4026532000) Audit.sample_state
           {| Audit.tmp_event := [Audit.built_event 8 4 Audit.sample_ctx
                                    (Audit.sample_kernel 4026532000)];
              Audit.lookups := []; Audit.events := [Audit.stale_event] |}).
  - vm_compute. reflexivity.
  - vm_compute. reflexivity.
Defined.

Lemma event_well_formed_witness :
  Audit.mntns_id (Audit.built_event 8 4 Audit.sample_ctx (Audit.sample_kernel 4026532000))
  <> 0.
Proof.
  apply (AuditMore.event_well_formed 8 4 true Audit.sample_ctx
           (Audit.sample_kernel 4026532000) Audit.sample_state).
  vm_compute. reflexivity.
Defined.

Lemma filter_values_unused_witness :
  Audit.kprobe__audit_seccomp 8 4 true Audit.sample_ctx
    (Audit.sample_kernel 4026532000) Audit.sample_state
  = Audit.kprobe__audit_seccomp 8 4 true Audit.sample_ctx
      (Audit.with_filter (Audit.sample_kernel 4026532000) {[ 4026532000 := 7 ]})
      Audit.sample_state.
Proof.
  apply AuditMore.filter_values_unused.
  simpl. now rewrite !dom_singleton_L.
Defined.
